(** * VMS front end: display logic of the validation workflow pages

    A shallow embedding of the pure computations found in the React pages
    of the Validation Management System front end (statistics, role gates,
    option lists, table cell renderers), with the properties the
    specification states about them.

    Conventions of the embedding.
    - TypeScript string-literal unions are inductive types; interfaces are
      records, one module per interface so that field names stay those of
      the source; an optional field [f?: T] is [option T].
    - JavaScript arrays are lists; [Array.prototype.filter] is stdpp's
      [filter]; [new Set(xs).size] is the size of a [gset].
    - Counts ([xs.length], [set.size]) are integers of [Z]; they are exact
      in JavaScript as well.  Where the source divides, multiplies and
      calls [Math.round], the operands are IEEE-754 binary64 numbers, as in
      JavaScript: Rocq's primitive [float] with its [div] and [mul].
    - [TestExecution.execution_date] holds the epoch milliseconds that
      [new Date(execution_date).getTime()] yields for the stored date;
      the sign of a difference of two of them is the sign of the
      difference in [Z]. *)

From Stdlib Require Import ZArith Lia Sorted Ascii PrimFloat SpecFloat FloatOps.
From stdpp Require Import base decidable option list strings pretty gmap.

Local Open Scope Z_scope.

(** ** Enumerations ([types/index.ts]) *)

Inductive ProjectStatus :=
  | Planning | URS | FS | DS | Testing | Completed | OnHold.

Inductive RiskLevel := Low | Medium | High | Critical.

Inductive URSStatus :=
  | URS_Draft | URS_UnderReview | URS_Approved | URS_Obsolete.

Inductive FSStatus := FS_Draft | FS_UnderReview | FS_Approved.

Inductive DSStatus := DS_Draft | DS_UnderReview | DS_Approved.

Inductive TestResult := NotExecuted | Pass | Fail | Blocked.

Inductive Role := Admin | ValidationLead | QA | Executor.

Inductive TraceabilityStatus := Complete | Partial | NotStarted | Failed.

#[global] Instance ProjectStatus_eq_dec : EqDecision ProjectStatus.
Proof. solve_decision. Defined.
#[global] Instance RiskLevel_eq_dec : EqDecision RiskLevel.
Proof. solve_decision. Defined.
#[global] Instance URSStatus_eq_dec : EqDecision URSStatus.
Proof. solve_decision. Defined.
#[global] Instance FSStatus_eq_dec : EqDecision FSStatus.
Proof. solve_decision. Defined.
#[global] Instance DSStatus_eq_dec : EqDecision DSStatus.
Proof. solve_decision. Defined.
#[global] Instance TestResult_eq_dec : EqDecision TestResult.
Proof. solve_decision. Defined.
#[global] Instance Role_eq_dec : EqDecision Role.
Proof. solve_decision. Defined.
#[global] Instance TraceabilityStatus_eq_dec : EqDecision TraceabilityStatus.
Proof. solve_decision. Defined.

Inductive SystemType := GxP | NonGxP.

Inductive ValidationModel := VModel | AgileCSV.

Inductive ProjectType := NewSystem | Change | Revalidation.

Inductive DeviationStatus :=
  | Dev_Open | Dev_Investigating | Dev_CAPAAssigned | Dev_CAPAVerified
  | Dev_Closed.

#[global] Instance DeviationStatus_eq_dec : EqDecision DeviationStatus.
Proof. solve_decision. Defined.

(** The string of a member of the union [DeviationStatus]. *)
Definition DeviationStatus_string (s : DeviationStatus) : string :=
  match s with
  | Dev_Open => "Open"
  | Dev_Investigating => "Investigating"
  | Dev_CAPAAssigned => "CAPA Assigned"
  | Dev_CAPAVerified => "CAPA Verified"
  | Dev_Closed => "Closed"
  end.

(** ** JavaScript numbers and array helpers *)

Module Js.

(** The binary64 number nearest to an integer (exact below [2^53]). *)
Definition num (z : Z) : float :=
  SF2Prim (binary_normalize prec emax z 0 false).

(** [Math.round x]: [floor (x + 1/2)] computed exactly on the value
    [(-1)^s * m * 2^e] of a finite [x]; a result of zero keeps the sign
    of a negative argument; NaN, the infinities and the zeros are
    returned unchanged. *)
Definition Math_round (x : float) : float :=
  match Prim2SF x with
  | S754_finite s m e =>
      let v := if s then Z.neg m else Z.pos m in
      let z := if 0 <=? e then v * 2 ^ e
               else (2 * v + 2 ^ (- e)) / 2 ^ (- e + 1) in
      if (z =? 0) && s then neg_zero else num z
  | _ => x
  end.

(** [xs.indexOf(x)]: position of the first occurrence, [-1] if none. *)
Fixpoint indexOf_from {A} `{EqDecision A} (i : Z) (x : A) (xs : list A) : Z :=
  match xs with
  | [] => -1
  | y :: ys => if decide (y = x) then i else indexOf_from (i + 1) x ys
  end.

Definition indexOf {A} `{EqDecision A} (xs : list A) (x : A) : Z :=
  indexOf_from 0 x xs.

(** [new Set(xs).size] for an array of strings. *)
Definition Set_size (xs : list string) : Z :=
  Z.of_nat (size (list_to_set xs : gset string)).

(** [xs.length] *)
Definition length {A} (xs : list A) : Z := Z.of_nat (List.length xs).

(** Truthiness of an optional string: [undefined] and the empty string
    are falsy. *)
Definition truthy (s : option string) : bool :=
  match s with
  | Some s => bool_decide (s ≠ "")
  | None => false
  end.

(** [xs.sort(cmp)] is a stable sort (ECMAScript 2019); a positive
    [cmp a b] places [a] after [b].  Written as a stable insertion sort:
    the element inserted in front only moves past elements it compares
    strictly greater than. *)
Fixpoint insert_sorted {A} (cmp : A → A → Z) (x : A) (xs : list A) : list A :=
  match xs with
  | [] => [x]
  | y :: ys => if 0 <? cmp x y then y :: insert_sorted cmp x ys else x :: xs
  end.

Definition sort {A} (cmp : A → A → Z) (xs : list A) : list A :=
  foldr (insert_sorted cmp) [] xs.

(** The line feed, the separator in [s.split('\n')]. *)
Definition LF : ascii := "010"%char.

(** [s.split(sep)] for a separator of one character: the pieces between
    the occurrences of [sep], in order; the empty string gives one empty
    piece. *)
Fixpoint split (sep : ascii) (s : string) : list string :=
  match s with
  | EmptyString => [EmptyString]
  | String c rest =>
      if decide (c = sep) then EmptyString :: split sep rest
      else match split sep rest with
           | piece :: pieces => String c piece :: pieces
           | [] => [String c EmptyString]
           end
  end.

(** The characters of a string, in order. *)
Fixpoint chars (s : string) : list ascii :=
  match s with
  | EmptyString => []
  | String c rest => c :: chars rest
  end.

(** [xs.join(sep)] *)
Fixpoint join (sep : string) (xs : list string) : string :=
  match xs with
  | [] => EmptyString
  | [x] => x
  | x :: rest => x +:+ sep +:+ join sep rest
  end.

(** [a || b] on optional strings. *)
Definition or_else (a : option string) (b : string) : string :=
  match a with
  | Some s => if decide (s = EmptyString) then b else s
  | None => b
  end.

(** [xs.find(p)]: the first element that passes, [undefined] if none. *)
Definition find {A} (P : A → Prop) `{!∀ x, Decision (P x)} (xs : list A)
  : option A :=
  head (filter P xs).

End Js.

(** ** Interfaces ([types/index.ts]) *)

Record User := { email : string; role : Role }.

(** [user?.role] for the [user] of the authentication context, which is
    [null] when nobody is logged in. *)
Definition role_of (user : option User) : option Role := role <$> user.

Module Requirement.
Record t := {
  id : string;
  project_id : string;
  category : string;
  title : string;
  description : string;
  acceptance_criteria : string;
  gxp_impact : bool;
  patient_safety_risk : RiskLevel;
  product_quality_risk : RiskLevel;
  data_integrity_risk : RiskLevel;
  overall_risk : RiskLevel;
  version : string;
  status : URSStatus;
  ai_suggested : bool;
  ai_ambiguity_score : option float;
  ai_ambiguity_notes : option string;
  approved_by : option string;
  approved_at : option string;
  created_at : string;
  created_by : string }.
End Requirement.

Module FunctionalSpecification.
Record t := {
  id : string;
  urs_id : string;
  project_id : string;
  title : string;
  description : string;
  technical_approach : string;
  version : string;
  status : FSStatus;
  ai_generated : bool;
  approved_by : option string;
  approved_at : option string;
  created_at : string;
  created_by : string }.
End FunctionalSpecification.

Module DesignSpecification.
Record t := {
  id : string;
  fs_id : string;
  project_id : string;
  title : string;
  description : string;
  technical_design : string;
  technical_details : string;
  data_structures : string;
  interfaces : string;
  version : string;
  status : DSStatus;
  ai_generated : bool;
  approved_by : option string;
  approved_at : option string;
  created_at : string;
  created_by : string }.
End DesignSpecification.

Module SystemBoundary.
(** The four arrays of small objects are kept as lists of tuples of their
    fields, in the order of the interface. *)
Record t := {
  id : string;
  project_id : string;
  in_scope_items : list string;
  out_of_scope_items : list string;
  exclusion_justifications : list (string * string);
  interfaces : list (string * string * string * bool);
  dependencies : list (string * string * string);
  sop_references : list (string * string * string);
  version : string;
  status : string;
  approved_by : option string;
  approved_at : option string;
  created_at : string;
  created_by : string }.
End SystemBoundary.

Module TestCase.
Record t := {
  id : string;
  fs_id : string;
  urs_id : string;
  project_id : string;
  test_type : string;
  title : string;
  description : string;
  preconditions : string;
  test_steps : string;
  expected_result : string;
  priority : string;
  ai_generated : bool;
  created_at : string;
  created_by : string }.
End TestCase.

Module TestExecution.
Record t := {
  id : string;
  test_case_id : string;
  project_id : string;
  cycle : Z;
  executor : string;
  execution_date : Z;
  result : TestResult;
  actual_result : string;
  evidence_references : list string;
  comments : string;
  environment : string;
  deviation_id : option string;
  created_at : string }.
End TestExecution.

Module DeviationCreate.
Record t := {
  test_execution_id : string;
  deviation_type : string;
  severity : RiskLevel;
  title : string;
  description : string;
  root_cause : string;
  capa_corrective : string;
  capa_preventive : string }.
End DeviationCreate.

Module TraceabilityRow.
Record t := {
  urs_id : string;
  urs_title : string;
  urs_status : string;
  urs_risk : string;
  fs_id : option string;
  fs_title : option string;
  fs_status : option string;
  ds_id : option string;
  ds_title : option string;
  tc_id : option string;
  tc_title : option string;
  tc_type : option string;
  exec_id : option string;
  exec_result : option string;
  exec_date : option string;
  deviation_id : option string;
  deviation_status : option string;
  status : TraceabilityStatus }.
End TraceabilityRow.

Module Deviation.
Record t := {
  id : string;
  test_execution_id : string;
  project_id : string;
  deviation_type : string;
  severity : RiskLevel;
  title : string;
  description : string;
  root_cause : string;
  root_cause_category : string;
  root_cause_ai_suggested : bool;
  investigation_summary : string;
  capa_corrective : string;
  capa_preventive : string;
  capa_due_date : option string;
  effectiveness_criteria : string;
  effectiveness_verified : bool;
  effectiveness_evidence : string;
  status : DeviationStatus;
  assigned_to : option string;
  created_at : string;
  created_by : string;
  closed_by : option string;
  closed_at : option string }.
End Deviation.

Module ValidationProject.
Record t := {
  id : string;
  name : string;
  project_type : ProjectType;
  system_type : SystemType;
  validation_model : ValidationModel;
  intended_use : string;
  scope : string;
  applicable_regulations : list string;
  status : ProjectStatus;
  risk_level : RiskLevel;
  validation_lead : string;
  qa_reviewer : string;
  project_sponsor : string;
  target_completion : option string;
  actual_completion : option string;
  created_at : string;
  created_by : string }.
End ValidationProject.

(** An entry of an antd [Select]: [{ value, label }]. *)
Record SelectOption := { value : string; label : string }.

(** ** Dashboard page: project progress ([getProgressPercent]) *)

Module DashboardPage.

Definition stages : list ProjectStatus :=
  [Planning; URS; FS; DS; Testing; Completed].

Definition getProgressPercent (status : ProjectStatus) : float :=
  let idx := Js.indexOf stages status in
  Js.Math_round (Js.num idx / Js.num (Js.length stages - 1) * 100)%float.

(** The rounded ratio [round (n / d)] over the rationals, for [0 < d]:
    [floor (n / d + 1/2)]. *)
Definition round_ratio (n d : Z) : Z := (2 * n + d) / (2 * d).

(** Counts of the badges Active and Completed in the page header. *)
Definition activeCount (projects : list ValidationProject.t) : Z :=
  Js.length (filter (λ p, ValidationProject.status p ≠ Completed) projects).

Definition completedCount (projects : list ValidationProject.t) : Z :=
  Js.length (filter (λ p, ValidationProject.status p = Completed) projects).

(** [strokeColor] of the progress bar on a project card. *)
Definition strokeColor (status : ProjectStatus) : string :=
  if decide (status = Completed) then "#22c55e" else "#3b82f6".

End DashboardPage.

(** ** Validation summary report page: decision banner *)

Module VSRPage.

Definition getDecisionColor (decision : string) : string :=
  if decide (decision = "Approved") then "#22c55e"
  else if decide (decision = "Conditionally Approved") then "#f59e0b"
  else if decide (decision = "Not Approved") then "#ef4444"
  else "#64748b".

(** The icon of the banner: its component and its colour. *)
Inductive Icon := CheckCircle | ExclamationCircle | CloseCircle.

Definition getDecisionIcon (decision : string) : Icon * string :=
  if decide (decision = "Approved") then (CheckCircle, "#22c55e")
  else if decide (decision = "Conditionally Approved")
       then (ExclamationCircle, "#f59e0b")
       else (CloseCircle, "#ef4444").

End VSRPage.

(** ** Traceability page: statistics, coverage, deviation column *)

Module TraceabilityPage.

Record Stats := {
  total : Z;
  complete : Z;
  partial : Z;
  notStarted : Z;
  failed : Z }.

Definition stats (matrix : list TraceabilityRow.t) : Stats :=
  {| total := Js.Set_size (TraceabilityRow.urs_id <$> matrix);
     complete :=
       Js.length (filter (λ r, TraceabilityRow.status r = Complete) matrix);
     partial :=
       Js.length (filter (λ r, TraceabilityRow.status r = Partial) matrix);
     notStarted :=
       Js.length (filter (λ r, TraceabilityRow.status r = NotStarted) matrix);
     failed :=
       Js.length (filter (λ r, TraceabilityRow.status r = Failed) matrix) |}.

Definition coverage (matrix : list TraceabilityRow.t) : float :=
  if 0 <? total (stats matrix)
  then Js.Math_round
         (Js.num (complete (stats matrix)) / Js.num (total (stats matrix))
          * 100)%float
  else 0%float.

(** The numerator the specification asks for: the number of distinct
    requirements that have at least one row with status Complete. *)
Definition complete_requirements (matrix : list TraceabilityRow.t) : Z :=
  Js.Set_size
    (TraceabilityRow.urs_id
       <$> filter (λ r, TraceabilityRow.status r = Complete) matrix).

(** Coverage as the specification words it,
    [round (100 * complete_requirements / distinct requirements)]: the
    ratio is the exact one, rounded to the nearest integer with halves
    upwards.  The specification gives no value for a matrix without
    requirements; the page's [0] is used there. *)
Definition coverage_by_requirement (matrix : list TraceabilityRow.t) : float :=
  if 0 <? total (stats matrix)
  then Js.num
         (DashboardPage.round_ratio
            (100 * complete_requirements matrix) (total (stats matrix)))
  else 0%float.

(** What the Deviation column shows in a row. *)
Inductive DeviationCell :=
  | DeviationLink (id : string) (tag_color : string) (tag_text : option string)
  | ExpectedTag
  | NoContent.

(** [render: (id, row) => ...] of the Deviation column. *)
Definition renderDeviation (id : option string) (row : TraceabilityRow.t)
  : DeviationCell :=
  if Js.truthy id
  then DeviationLink (default "" id)
         (if bool_decide (TraceabilityRow.deviation_status row = Some "Closed")
          then "success" else "error")
         (TraceabilityRow.deviation_status row)
  else if bool_decide (TraceabilityRow.exec_result row = Some "Fail")
       then ExpectedTag
       else NoContent.

(** The column has [dataIndex: 'deviation_id']. *)
Definition deviationColumn (row : TraceabilityRow.t) : DeviationCell :=
  renderDeviation (TraceabilityRow.deviation_id row) row.

(** The non-null members of [DrawerType]. *)
Inductive DrawerKind :=
  | Drawer_URS | Drawer_FS | Drawer_DS | Drawer_TC | Drawer_EXEC | Drawer_DEV.

#[global] Instance DrawerKind_eq_dec : EqDecision DrawerKind.
Proof. solve_decision. Defined.

(** What an id or result column shows in a row. *)
Inductive Cell :=
  | IdLink (type : DrawerKind) (id : string) (text : string)
  | EmptyIdTag
  | MissingTag (label : string)
  | OptionalTag
  | Dash
  | ResultLink (result : string) (exec_id : option string).

(** [renderClickableId(id, type, label)]: a grey tag for a falsy id,
    otherwise a link that opens the drawer of [type] for [id] and reads
    [label || id]. *)
Definition renderClickableId (id : option string) (type : DrawerKind)
    (label : option string) : Cell :=
  if Js.truthy id
  then IdLink type (default "" id) (Js.or_else label (default "" id))
  else EmptyIdTag.

Definition renderMissingTag (label : string) : Cell := MissingTag label.

Definition ursIdColumn (row : TraceabilityRow.t) : Cell :=
  renderClickableId (Some (TraceabilityRow.urs_id row)) Drawer_URS None.

Definition fsIdColumn (row : TraceabilityRow.t) : Cell :=
  if Js.truthy (TraceabilityRow.fs_id row)
  then renderClickableId (TraceabilityRow.fs_id row) Drawer_FS None
  else renderMissingTag "FS".

Definition dsColumn (row : TraceabilityRow.t) : Cell :=
  if Js.truthy (TraceabilityRow.ds_id row)
  then renderClickableId (TraceabilityRow.ds_id row) Drawer_DS None
  else if Js.truthy (TraceabilityRow.fs_id row) then OptionalTag
  else Dash.

Definition tcIdColumn (row : TraceabilityRow.t) : Cell :=
  if Js.truthy (TraceabilityRow.tc_id row)
  then renderClickableId (TraceabilityRow.tc_id row) Drawer_TC None
  else if Js.truthy (TraceabilityRow.fs_id row) then renderMissingTag "TC"
  else Dash.

(** Result column; a click opens the execution drawer only when the row
    has an [exec_id]. *)
Definition execResultColumn (row : TraceabilityRow.t) : Cell :=
  let r := TraceabilityRow.exec_result row in
  if negb (Js.truthy r) && Js.truthy (TraceabilityRow.tc_id row)
  then renderMissingTag "Exec"
  else if negb (Js.truthy r) then Dash
  else ResultLink (default "" r)
         (if Js.truthy (TraceabilityRow.exec_id row)
          then TraceabilityRow.exec_id row else None).

(** The id and result cells of a row, from left to right. *)
Definition chainCells (row : TraceabilityRow.t) : list Cell :=
  [ ursIdColumn row; fsIdColumn row; dsColumn row; tcIdColumn row;
    execResultColumn row ].

(** The link inside the Deviation column, [renderClickableId(id, 'DEV')],
    which is rendered for a truthy [deviation_id] only. *)
Definition deviationIdLink (row : TraceabilityRow.t) : option Cell :=
  if Js.truthy (TraceabilityRow.deviation_id row)
  then Some (renderClickableId (TraceabilityRow.deviation_id row)
               Drawer_DEV None)
  else None.

(** Every cell of a row that can open the drawer: the id columns, the
    Result column and the link of the Deviation column. *)
Definition linkCells (row : TraceabilityRow.t) : list Cell :=
  chainCells row ++ option_list (deviationIdLink row).

(** The call [openDrawer(type, id)] that a click on a cell makes, if any:
    an id link calls it with its own arguments, a result calls
    [openDrawer('EXEC', row.exec_id)] when the row has an [exec_id]. *)
Definition onClick (c : Cell) : option (DrawerKind * string) :=
  match c with
  | IdLink type id _ => Some (type, id)
  | ResultLink _ (Some exec_id) => Some (Drawer_EXEC, exec_id)
  | _ => None
  end.

(** Labels of the Missing tags among some cells. *)
Definition missingLabels (cells : list Cell) : list string :=
  omap (λ c, match c with MissingTag l => Some l | _ => None end) cells.

(** [rowClassName] of the matrix table. *)
Definition rowClassName (r : TraceabilityRow.t) : string :=
  if decide (TraceabilityRow.status r = Failed) then "row-failed"
  else if decide (TraceabilityRow.status r = Complete) then "row-complete"
  else "".

(** *** Detail drawer *)

(** The record held in [drawer.data]. *)
Inductive DrawerData :=
  | UrsData (urs : Requirement.t)
  | FsData (fs : FunctionalSpecification.t)
  | TcData (tc : TestCase.t)
  | ExecData (exec : TestExecution.t)
  | DevData (dev : Deviation.t).

(** The [id] field of the record, whatever its interface. *)
Definition data_id (d : DrawerData) : string :=
  match d with
  | UrsData urs => Requirement.id urs
  | FsData fs => FunctionalSpecification.id fs
  | TcData tc => TestCase.id tc
  | ExecData exec => TestExecution.id exec
  | DevData dev => Deviation.id dev
  end.

Record DrawerState := {
  type : option DrawerKind;
  id : option string;
  data : option DrawerData;
  loading : bool }.

(** Answers of the server to the requests of [openDrawer] for the
    selected project; [None] stands for a request that is rejected. *)
Record Server := {
  ursById : string → option Requirement.t;
  fsByProject : option (list FunctionalSpecification.t);
  tcByProject : option (list TestCase.t);
  execByProject : option (list TestExecution.t);
  devByProject : option (list Deviation.t) }.

(** The [switch] of [openDrawer]: the value assigned to [data], which is
    [null] for DS and for an id that is not in the list; the outer
    [None] is a rejected request. *)
Definition fetch (server : Server) (kind : DrawerKind) (id : string)
  : option (option DrawerData) :=
  match kind with
  | Drawer_URS => urs ← ursById server id; Some (Some (UrsData urs))
  | Drawer_FS =>
      fsList ← fsByProject server;
      Some (FsData
              <$> Js.find (λ f, FunctionalSpecification.id f = id) fsList)
  | Drawer_TC =>
      tcList ← tcByProject server;
      Some (TcData <$> Js.find (λ t, TestCase.id t = id) tcList)
  | Drawer_EXEC =>
      execList ← execByProject server;
      Some (ExecData <$> Js.find (λ e, TestExecution.id e = id) execList)
  | Drawer_DEV =>
      devList ← devByProject server;
      Some (DevData <$> Js.find (λ d, Deviation.id d = id) devList)
  | Drawer_DS => Some None
  end.

(** First state update of [openDrawer], before the request is sent; an
    empty id returns at once. *)
Definition openDrawer_start (kind : DrawerKind) (id : string)
    (st : DrawerState) : DrawerState :=
  if decide (id = "") then st
  else {| type := Some kind; id := Some id; data := None; loading := true |}.

(** Second state update of [openDrawer], when the request of [kind] and
    [id] has been answered: [setDrawer(prev => ({ ...prev, data,
    loading: false }))], or [({ ...prev, loading: false })] in [catch].
    [prev] is the state at that moment. *)
Definition openDrawer_finish (server : Server) (kind : DrawerKind)
    (id : string) (prev : DrawerState) : DrawerState :=
  match fetch server kind id with
  | Some d =>
      {| type := type prev; id := TraceabilityPage.id prev; data := d;
         loading := false |}
  | None =>
      {| type := type prev; id := TraceabilityPage.id prev;
         data := data prev; loading := false |}
  end.

(** [openDrawer] with nothing happening between its two updates. *)
Definition openDrawer (server : Server) (kind : DrawerKind) (id : string)
    (st : DrawerState) : DrawerState :=
  if decide (id = "") then st
  else openDrawer_finish server kind id (openDrawer_start kind id st).

Definition closeDrawer (st : DrawerState) : DrawerState :=
  {| type := None; id := None; data := None; loading := false |}.

(** [open] of the drawer. *)
Definition drawerOpen (st : DrawerState) : bool :=
  bool_decide (type st ≠ None).

(** Title text of the drawer. *)
Definition drawerTitle (st : DrawerState) : option string :=
  kind ← type st;
  Some match kind with
       | Drawer_URS => "User Requirement Specification"
       | Drawer_FS => "Functional Specification"
       | Drawer_DS => "Design Specification"
       | Drawer_TC => "Test Case"
       | Drawer_EXEC => "Test Execution Record"
       | Drawer_DEV => "Deviation & CAPA"
       end.

(** Body of the drawer: the renderer of a kind applied to the record in
    [drawer.data], which it casts to its own interface. *)
Inductive DrawerContent :=
  | LoadingContent
  | DetailContent (renderer : DrawerKind) (record : DrawerData)
  | NoDrawerContent.

Definition renderDrawerContent (st : DrawerState) : DrawerContent :=
  if loading st then LoadingContent
  else match type st, data st with
       | Some Drawer_DS, _ | None, _ | _, None => NoDrawerContent
       | Some kind, Some record => DetailContent kind record
       end.

End TraceabilityPage.

(** ** Approve controls of the artifact pages *)

Module URSPage.

(** Detail panel of the selected requirement. *)
Definition approveVisible (selectedURS : Requirement.t) (user : option User)
  : bool :=
  bool_decide (Requirement.status selectedURS ≠ URS_Approved)
  && bool_decide (role_of user = Some QA).

(** Linked-FS table row and FS drawer of the same page. *)
Definition approveFSVisible (fs : FunctionalSpecification.t)
    (user : option User) : bool :=
  bool_decide (FunctionalSpecification.status fs ≠ FS_Approved)
  && bool_decide (role_of user = Some QA).

Definition getLinkedFS (fsList : list FunctionalSpecification.t)
    (ursId : string) : list FunctionalSpecification.t :=
  filter (λ fs, FunctionalSpecification.urs_id fs = ursId) fsList.

(** [{ ...updated, status }] *)
Definition withStatus (updated : FunctionalSpecification.t)
    (status : FSStatus) : FunctionalSpecification.t :=
  {| FunctionalSpecification.id := FunctionalSpecification.id updated;
     FunctionalSpecification.urs_id := FunctionalSpecification.urs_id updated;
     FunctionalSpecification.project_id :=
       FunctionalSpecification.project_id updated;
     FunctionalSpecification.title := FunctionalSpecification.title updated;
     FunctionalSpecification.description :=
       FunctionalSpecification.description updated;
     FunctionalSpecification.technical_approach :=
       FunctionalSpecification.technical_approach updated;
     FunctionalSpecification.version :=
       FunctionalSpecification.version updated;
     FunctionalSpecification.status := status;
     FunctionalSpecification.ai_generated :=
       FunctionalSpecification.ai_generated updated;
     FunctionalSpecification.approved_by :=
       FunctionalSpecification.approved_by updated;
     FunctionalSpecification.approved_at :=
       FunctionalSpecification.approved_at updated;
     FunctionalSpecification.created_at :=
       FunctionalSpecification.created_at updated;
     FunctionalSpecification.created_by :=
       FunctionalSpecification.created_by updated |}.

(** [selectedFS] after [handleApproveFS(fs)] when the server has accepted
    the approval: if the drawer shows an FS with the id of [fs], it is
    replaced by the entry of that id in the list the page holds, with
    status Approved. *)
Definition handleApproveFS (fsList : list FunctionalSpecification.t)
    (selectedFS : option FunctionalSpecification.t)
    (fs : FunctionalSpecification.t) : option FunctionalSpecification.t :=
  if decide (FunctionalSpecification.id <$> selectedFS
             = Some (FunctionalSpecification.id fs))
  then match Js.find (λ f, FunctionalSpecification.id f
                           = FunctionalSpecification.id fs) fsList with
       | Some updated => Some (withStatus updated FS_Approved)
       | None => selectedFS
       end
  else selectedFS.

End URSPage.

Module FSPage.

Definition approveVisible (selectedFS : FunctionalSpecification.t)
    (user : option User) : bool :=
  bool_decide (FunctionalSpecification.status selectedFS ≠ FS_Approved)
  && bool_decide (role_of user = Some QA).

(** Drawer: [selectedFS?.status !== 'Approved' && user?.role === 'QA']. *)
Definition drawerApproveVisible (selectedFS : option FunctionalSpecification.t)
    (user : option User) : bool :=
  bool_decide (FunctionalSpecification.status <$> selectedFS ≠ Some FS_Approved)
  && bool_decide (role_of user = Some QA).

Definition approvedURS (ursList : list Requirement.t) : list Requirement.t :=
  filter (λ u, Requirement.status u = URS_Approved) ursList.

(** [disabled] of the New FS button. *)
Definition newFSDisabled (ursList : list Requirement.t) : bool :=
  bool_decide (Js.length (approvedURS ursList) = 0).

(** Options of the required field Link to Approved URS. *)
Definition ursOptions (ursList : list Requirement.t) : list SelectOption :=
  (λ u, {| value := Requirement.id u;
           label := Requirement.id u +:+ ": " +:+ Requirement.title u |})
    <$> approvedURS ursList.

Definition getLinkedURS (ursList : list Requirement.t) (ursId : string)
  : option Requirement.t :=
  Js.find (λ u, Requirement.id u = ursId) ursList.

Definition getLinkedTCs (testCases : list TestCase.t) (fsId : string)
  : list TestCase.t :=
  filter (λ tc, TestCase.fs_id tc = fsId) testCases.

Record Stats := {
  total : Z;
  approved : Z;
  draft : Z;
  withTC : Z }.

Definition stats (fsList : list FunctionalSpecification.t)
    (testCases : list TestCase.t) : Stats :=
  {| total := Js.length fsList;
     approved :=
       Js.length
         (filter (λ f, FunctionalSpecification.status f = FS_Approved) fsList);
     draft :=
       Js.length
         (filter (λ f, FunctionalSpecification.status f = FS_Draft) fsList);
     withTC :=
       Js.length
         (filter
            (λ f, 0 < Js.length
                        (getLinkedTCs testCases (FunctionalSpecification.id f)))
            fsList) |}.

End FSPage.

Module DSPage.

Definition approveVisible (selectedDS : DesignSpecification.t)
    (user : option User) : bool :=
  bool_decide (DesignSpecification.status selectedDS ≠ DS_Approved)
  && bool_decide (role_of user = Some QA).

Definition drawerApproveVisible (selectedDS : option DesignSpecification.t)
    (user : option User) : bool :=
  bool_decide (DesignSpecification.status <$> selectedDS ≠ Some DS_Approved)
  && bool_decide (role_of user = Some QA).

Definition approvedFS (fsList : list FunctionalSpecification.t)
  : list FunctionalSpecification.t :=
  filter (λ f, FunctionalSpecification.status f = FS_Approved) fsList.

(** [disabled] of the New DS button. *)
Definition newDSDisabled (fsList : list FunctionalSpecification.t) : bool :=
  bool_decide (Js.length (approvedFS fsList) = 0).

(** Options of the required field Link to Approved FS. *)
Definition fsOptions (fsList : list FunctionalSpecification.t)
  : list SelectOption :=
  (λ f, {| value := FunctionalSpecification.id f;
           label := FunctionalSpecification.id f +:+ ": "
                    +:+ FunctionalSpecification.title f |})
    <$> approvedFS fsList.

End DSPage.

Module SystemBoundaryPage.

Definition approveVisible (boundary : SystemBoundary.t) (user : option User)
  : bool :=
  bool_decide (SystemBoundary.status boundary ≠ "Approved")
  && bool_decide (role_of user = Some QA).

(** Values of the Define System Boundary form: two text areas, one item
    per line. *)
Record CreateValues := {
  inScope : option string;
  outScope : option string }.

(** [text?.split('\n').filter(Boolean) || []] *)
Definition scopeItems (text : option string) : list string :=
  match text with
  | Some s => filter (λ item, item ≠ "") (Js.split Js.LF s)
  | None => []
  end.

(** Body that [handleCreate] sends to [boundaryApi.create]. *)
Record BoundaryCreate := {
  in_scope_items : list string;
  out_of_scope_items : list string;
  exclusion_justifications : list (string * string);
  interfaces : list (string * string * string * bool);
  dependencies : list (string * string * string);
  sop_references : list (string * string * string) }.

Definition handleCreate (values : CreateValues) : BoundaryCreate :=
  {| in_scope_items := scopeItems (inScope values);
     out_of_scope_items := scopeItems (outScope values);
     exclusion_justifications := [];
     interfaces := [];
     dependencies := [];
     sop_references := [] |}.

End SystemBoundaryPage.

(** ** Test management page: latest execution, statistics, Execute button *)

Module TestManagementPage.

(** [executions.filter(e => e.test_case_id === tcId)
      .sort((a, b) => date(b) - date(a))[0]]; indexing the empty array
    gives [undefined]. *)
Definition getLatestExecution (executions : list TestExecution.t)
    (tcId : string) : option TestExecution.t :=
  head
    (Js.sort
       (λ a b, TestExecution.execution_date b - TestExecution.execution_date a)
       (filter (λ e, TestExecution.test_case_id e = tcId) executions)).

(** Status column of the test-case table: the result of the latest
    execution, the tag Not Executed when there is none. *)
Definition statusTag (executions : list TestExecution.t) (tc : TestCase.t)
  : TestResult :=
  match getLatestExecution executions (TestCase.id tc) with
  | Some exec => TestExecution.result exec
  | None => NotExecuted
  end.

Record Stats := {
  total : Z;
  passed : Z;
  failed : Z;
  blocked : Z;
  notExecuted : Z }.

Definition stats (testCases : list TestCase.t)
    (executions : list TestExecution.t) : Stats :=
  {| total := Js.length testCases;
     passed :=
       Js.length (filter (λ e, TestExecution.result e = Pass) executions);
     failed :=
       Js.length (filter (λ e, TestExecution.result e = Fail) executions);
     blocked :=
       Js.length (filter (λ e, TestExecution.result e = Blocked) executions);
     notExecuted :=
       Js.length testCases
       - Js.Set_size (TestExecution.test_case_id <$> executions) |}.

Definition passRate (testCases : list TestCase.t)
    (executions : list TestExecution.t) : float :=
  if 0 <? total (stats testCases executions)
  then Js.Math_round
         (Js.num (passed (stats testCases executions))
          / Js.num
              (Z.max
                 (Js.length
                    (filter (λ e, TestExecution.result e ≠ NotExecuted)
                       executions))
                 1)
          * 100)%float
  else 0%float.

(** [disabled] of the Execute button in the row of [tc]. *)
Definition executeDisabled (user : option User) (tc : TestCase.t) : bool :=
  bool_decide (role_of user ≠ Some Executor)
  && bool_decide (role_of user ≠ Some Admin).

(** The part of the page state the button writes. *)
Record ModalState := {
  selectedTC : option TestCase.t;
  execModalVisible : bool }.

(** A click on the Execute button: a disabled button does not run its
    [onClick]; otherwise the execution form opens for [tc]. *)
Definition clickExecute (user : option User) (tc : TestCase.t)
    (st : ModalState) : ModalState :=
  if executeDisabled user tc then st
  else {| selectedTC := Some tc; execModalVisible := true |}.

(** The selection rule in the words of the specification: greatest
    execution timestamp among the executions of the test case, ties
    broken by the highest-numbered cycle. *)
Definition latest_by_date_then_cycle (executions : list TestExecution.t)
    (tcId : string) (e : TestExecution.t) : Prop :=
  e ∈ executions ∧ TestExecution.test_case_id e = tcId ∧
  ∀ e', e' ∈ executions → TestExecution.test_case_id e' = tcId →
    TestExecution.execution_date e' < TestExecution.execution_date e
    ∨ (TestExecution.execution_date e' = TestExecution.execution_date e
       ∧ TestExecution.cycle e' ≤ TestExecution.cycle e).

(** The selection rule of the stable sort: greatest execution timestamp,
    ties broken by the earliest position in the loaded list. *)
Definition latest_by_date_then_position (executions : list TestExecution.t)
    (tcId : string) (e : TestExecution.t) : Prop :=
  ∃ before after,
    executions = before ++ e :: after
    ∧ TestExecution.test_case_id e = tcId
    ∧ (∀ e', e' ∈ before → TestExecution.test_case_id e' = tcId →
         TestExecution.execution_date e' < TestExecution.execution_date e)
    ∧ (∀ e', e' ∈ after → TestExecution.test_case_id e' = tcId →
         TestExecution.execution_date e' ≤ TestExecution.execution_date e).

(** Number of executions whose result satisfies [p], by recursion on the
    list. *)
Fixpoint count_results (p : TestResult → bool)
    (executions : list TestExecution.t) : Z :=
  match executions with
  | [] => 0
  | e :: rest =>
      (if p (TestExecution.result e) then 1 else 0) + count_results p rest
  end.

Definition is_pass (r : TestResult) : bool :=
  match r with Pass => true | _ => false end.

Definition is_executed (r : TestResult) : bool :=
  match r with NotExecuted => false | _ => true end.

(** The distinct test-case ids that the executions reference. *)
Definition executed_ids (executions : list TestExecution.t) : list string :=
  remove_dups (TestExecution.test_case_id <$> executions).

(** The pass rate as the specification words it,
    [round (100 * passed / max (1, executed))] with the exact ratio
    rounded to the nearest integer, halves upwards, and [0] without test
    cases. *)
Definition passRate_by_ratio (testCases : list TestCase.t)
    (executions : list TestExecution.t) : float :=
  match testCases with
  | [] => 0%float
  | _ :: _ =>
      Js.num
        (DashboardPage.round_ratio
           (100 * count_results is_pass executions)
           (Z.max 1 (count_results is_executed executions)))
  end.

End TestManagementPage.

(** ** Percentages: [Math.round (p / d * 100)] against the exact ratio *)

Module Percent.

(** The percentage as the pages compute it: the binary64 quotient, times
    100, rounded by [Math.round]. *)
Definition percent (p d : Z) : float :=
  Js.Math_round (Js.num p / Js.num d * 100)%float.

(** [r] is the exact ratio [100 * p / d] rounded to the nearest integer
    with halves upwards, or one less than that where the ratio lies
    exactly halfway between two integers. *)
Definition nearest (p d r : Z) : Prop :=
  r = DashboardPage.round_ratio (100 * p) d
  ∨ (r = DashboardPage.round_ratio (100 * p) d - 1
     ∧ (200 * p) mod (2 * d) = d).

(** The integer between 0 and 100 that [percent p d] compares equal to
    ([===]) among the two that [nearest] allows, if there is one. *)
Definition shown (p d : Z) : option Z :=
  let x := percent p d in
  let r := DashboardPage.round_ratio (100 * p) d in
  if (0 <=? r) && (r <=? 100) && (x =? Js.num r)%float then Some r
  else if (1 <=? r) && (r <=? 101) && (x =? Js.num (r - 1))%float
          && ((200 * p) mod (2 * d) =? d)
       then Some (r - 1)
       else None.

(** [shown] finds an integer for every [0 <= p <= d] with [1 <= d <= N]. *)
Definition shown_up_to (N : nat) : bool :=
  forallb
    (λ d, forallb
            (λ p, bool_decide (is_Some (shown (Z.of_nat p) (Z.of_nat (S d)))))
            (seq 0 (S (S d))))
    (seq 0 N).

End Percent.

(** ** Deviation page: the Log New Deviation form *)

Module DeviationPage.

(** [loadData] keeps the failed executions only:
    [setExecutions(execs.filter(e => e.result === 'Fail'))]. *)
Definition loadedExecutions (execs : list TestExecution.t)
  : list TestExecution.t :=
  filter (λ e, TestExecution.result e = Fail) execs.

(** Options of the field Related Test Execution. *)
Definition executionOptions (executions : list TestExecution.t)
  : list SelectOption :=
  (λ e, {| value := TestExecution.id e;
           label := TestExecution.id e +:+ " - "
                    +:+ TestExecution.test_case_id e |})
    <$> executions.

(** Values of the form; a field the user left alone is [undefined]. *)
Record FormValues := {
  test_execution_id : option string;
  deviation_type : option string;
  severity : option RiskLevel;
  title : option string;
  description : option string }.

(** The antd rule [{ required: true }] on a text or select field: the
    value must be present and not the empty string. *)
Definition required (v : option string) : option string :=
  s ← v; if decide (s = "") then None else Some s.

(** Payload that [handleCreate] sends to [deviationApi.create]. *)
Definition handleCreate (test_execution_id deviation_type : string)
    (severity : RiskLevel) (title description : string) : DeviationCreate.t :=
  {| DeviationCreate.test_execution_id := test_execution_id;
     DeviationCreate.deviation_type := deviation_type;
     DeviationCreate.severity := severity;
     DeviationCreate.title := title;
     DeviationCreate.description := description;
     DeviationCreate.root_cause := "";
     DeviationCreate.capa_corrective := "";
     DeviationCreate.capa_preventive := "" |}.

(** [form.submit()]: [onFinish = handleCreate] runs only when every rule
    of the form passes; all five fields carry [required: true]. *)
Definition submit (values : FormValues) : option DeviationCreate.t :=
  e ← required (test_execution_id values);
  ty ← required (deviation_type values);
  s ← severity values;
  t ← required (title values);
  d ← required (description values);
  Some (handleCreate e ty s t d).

(** Step of the progress indicator in the detail modal. *)
Definition statusStep (s : DeviationStatus) : nat :=
  match s with
  | Dev_Open => 0
  | Dev_Investigating => 1
  | Dev_CAPAAssigned => 2
  | Dev_CAPAVerified => 3
  | Dev_Closed => 4
  end.

(** Titles of the [items] of that indicator. *)
Definition stepTitles : list string :=
  ["Open"; "Investigating"; "CAPA Assigned"; "CAPA Verified"; "Closed"].

Definition openCount (deviations : list Deviation.t) : Z :=
  Js.length (filter (λ d, Deviation.status d ≠ Dev_Closed) deviations).

(** [acc[status] = (acc[status] || 0) + 1] on an object whose entries
    are kept in insertion order: the count of an existing key is raised
    in place, a new key is added at the end. *)
Fixpoint increment (status : DeviationStatus)
    (acc : list (DeviationStatus * Z)) : list (DeviationStatus * Z) :=
  match acc with
  | [] => [(status, 1)]
  | (key, count) :: rest =>
      if decide (key = status) then (key, count + 1) :: rest
      else (key, count) :: increment status rest
  end.

(** [Object.entries(deviations.reduce(..., {}))]: the summary cards, one
    per status that occurs, with its number of deviations. *)
Definition summaryCards (deviations : list Deviation.t)
  : list (DeviationStatus * Z) :=
  foldl (λ acc d, increment (Deviation.status d) acc) [] deviations.

(** Sum of the numbers shown on some cards. *)
Definition cardsTotal (cards : list (DeviationStatus * Z)) : Z :=
  foldr (λ card sum, card.2 + sum) 0 cards.

End DeviationPage.

(** ** Test management page: the Execute Test and New Test Case forms *)

Module TestExecutionCreate.
Record t := {
  test_case_id : string;
  result : TestResult;
  actual_result : string;
  evidence_references : list string;
  comments : string;
  environment : string }.
End TestExecutionCreate.

Module ExecuteTestModal.

(** Values of the form; a field the user left alone is [undefined]. *)
Record FormValues := {
  result : option TestResult;
  actual_result : option string;
  evidence : option string;
  environment : option string;
  comments : option string }.

(** Options of the field Result. *)
Definition resultOptions : list TestResult := [Pass; Fail; Blocked].

(** The value of a required antd [Select]: one of its options. *)
Definition selected {A} `{EqDecision A} (options : list A) (v : option A)
  : option A :=
  x ← v; if decide (x ∈ options) then Some x else None.

(** [form.submit()] with [onFinish = handleExecute]: the form is inside
    the modal, Result and Actual Result are required, and
    [selectedTC!.id] throws into the [catch] when no test case is
    selected; [None] when nothing is sent to [executionApi.create]. *)
Definition handleExecute (st : TestManagementPage.ModalState)
    (values : FormValues) : option TestExecutionCreate.t :=
  if TestManagementPage.execModalVisible st then
    r ← selected resultOptions (result values);
    actual ← DeviationPage.required (actual_result values);
    tc ← TestManagementPage.selectedTC st;
    Some {| TestExecutionCreate.test_case_id := TestCase.id tc;
            TestExecutionCreate.result := r;
            TestExecutionCreate.actual_result := Js.or_else (Some actual) "";
            TestExecutionCreate.evidence_references :=
              if Js.truthy (evidence values)
              then [default "" (evidence values)] else [];
            TestExecutionCreate.comments := Js.or_else (comments values) "";
            TestExecutionCreate.environment :=
              Js.or_else (environment values) "" |}
  else None.

(** Options of the field Functional Specification of the New Test Case
    form: every loaded FS. *)
Definition fsOptions (fsList : list FunctionalSpecification.t)
  : list SelectOption :=
  (λ fs, {| value := FunctionalSpecification.id fs;
            label := FunctionalSpecification.id fs +:+ ": "
                     +:+ FunctionalSpecification.title fs |})
    <$> fsList.

End ExecuteTestModal.

(** ** URS page: creating an FS from an AI suggestion *)

Module FunctionalSpecificationCreate.
Record t := {
  urs_id : string;
  title : string;
  description : string;
  technical_approach : string }.
End FunctionalSpecificationCreate.

Module CreateFSModal.

(** The part of the state of the URS page that the flow reads and
    writes. *)
Record State := {
  selectedURS : option Requirement.t;
  fsModalVisible : bool }.

Record FormValues := {
  title : option string;
  description : option string;
  technical_approach : option string }.

(** [onRow.onClick] of the requirements table. *)
Definition selectRow (record : Requirement.t) (st : State) : State :=
  {| selectedURS := Some record; fsModalVisible := fsModalVisible st |}.

(** The button Generate FS is rendered in the detail panel of the
    selected requirement when its status is Approved; a click calls
    [handleAISuggestFS(selectedURS)]. *)
Definition generateFSVisible (st : State) : bool :=
  bool_decide (Requirement.status <$> selectedURS st = Some URS_Approved).

(** State update of [handleAISuggestFS] when the suggestion has arrived:
    the form opens. *)
Definition handleAISuggestFS_done (st : State) : State :=
  {| selectedURS := selectedURS st; fsModalVisible := true |}.

(** [form.submit()] with [onFinish = handleCreateFS]: the form is inside
    the modal, Title and Description are required, and nothing is sent
    without a selected requirement. *)
Definition handleCreateFS (st : State) (values : FormValues)
  : option FunctionalSpecificationCreate.t :=
  if fsModalVisible st then
    t ← DeviationPage.required (title values);
    d ← DeviationPage.required (description values);
    urs ← selectedURS st;
    Some {| FunctionalSpecificationCreate.urs_id := Requirement.id urs;
            FunctionalSpecificationCreate.title := t;
            FunctionalSpecificationCreate.description := d;
            FunctionalSpecificationCreate.technical_approach :=
              Js.or_else (technical_approach values) "" |}
  else None.

End CreateFSModal.

(** ** Sample records *)

Module Sample.

Definition admin : User := {| email := "admin@pharma.com"; role := Admin |}.
Definition qa : User := {| email := "qa@pharma.com"; role := QA |}.
Definition executor : User :=
  {| email := "executor@pharma.com"; role := Executor |}.

(** A requirement of project PRJ-001 with the given id and status. *)
Definition requirement (id : string) (status : URSStatus) : Requirement.t :=
  {| Requirement.id := id;
     Requirement.project_id := "PRJ-001";
     Requirement.category := "Functional";
     Requirement.title := "Electronic signature";
     Requirement.description := "Records are signed electronically";
     Requirement.acceptance_criteria := "Signature is bound to the record";
     Requirement.gxp_impact := true;
     Requirement.patient_safety_risk := Low;
     Requirement.product_quality_risk := Medium;
     Requirement.data_integrity_risk := High;
     Requirement.overall_risk := High;
     Requirement.version := "1.0";
     Requirement.status := status;
     Requirement.ai_suggested := false;
     Requirement.ai_ambiguity_score := None;
     Requirement.ai_ambiguity_notes := None;
     Requirement.approved_by := None;
     Requirement.approved_at := None;
     Requirement.created_at := "2024-03-01T09:00:00";
     Requirement.created_by := "lead@pharma.com" |}.

(** A functional specification under URS-001. *)
Definition fs (id : string) (status : FSStatus) : FunctionalSpecification.t :=
  {| FunctionalSpecification.id := id;
     FunctionalSpecification.urs_id := "URS-001";
     FunctionalSpecification.project_id := "PRJ-001";
     FunctionalSpecification.title := "Signature dialog";
     FunctionalSpecification.description := "Dialog asks for the password";
     FunctionalSpecification.technical_approach := "";
     FunctionalSpecification.version := "1.0";
     FunctionalSpecification.status := status;
     FunctionalSpecification.ai_generated := false;
     FunctionalSpecification.approved_by := None;
     FunctionalSpecification.approved_at := None;
     FunctionalSpecification.created_at := "2024-03-02T09:00:00";
     FunctionalSpecification.created_by := "lead@pharma.com" |}.

Definition testCase (id : string) : TestCase.t :=
  {| TestCase.id := id;
     TestCase.fs_id := "FS-001";
     TestCase.urs_id := "URS-001";
     TestCase.project_id := "PRJ-001";
     TestCase.test_type := "OQ";
     TestCase.title := "Sign a record";
     TestCase.description := "";
     TestCase.preconditions := "";
     TestCase.test_steps := "Open the record and sign";
     TestCase.expected_result := "Record shows the signature";
     TestCase.priority := "High";
     TestCase.ai_generated := false;
     TestCase.created_at := "2024-03-03T09:00:00";
     TestCase.created_by := "lead@pharma.com" |}.

(** An execution of a test case: id, test case, cycle, date in epoch
    milliseconds, result. *)
Definition execution (id tc : string) (cycle date : Z) (result : TestResult)
  : TestExecution.t :=
  {| TestExecution.id := id;
     TestExecution.test_case_id := tc;
     TestExecution.project_id := "PRJ-001";
     TestExecution.cycle := cycle;
     TestExecution.executor := "executor@pharma.com";
     TestExecution.execution_date := date;
     TestExecution.result := result;
     TestExecution.actual_result := "";
     TestExecution.evidence_references := [];
     TestExecution.comments := "";
     TestExecution.environment := "QA";
     TestExecution.deviation_id := None;
     TestExecution.created_at := "2024-03-04T09:00:00" |}.

(** A matrix row of requirement [urs] for test case [tc] whose latest
    execution has result [exec_result], with no deviation linked. *)
Definition row (urs tc : string) (exec_result : option string)
    (status : TraceabilityStatus) : TraceabilityRow.t :=
  {| TraceabilityRow.urs_id := urs;
     TraceabilityRow.urs_title := "Electronic signature";
     TraceabilityRow.urs_status := "Approved";
     TraceabilityRow.urs_risk := "High";
     TraceabilityRow.fs_id := Some "FS-001";
     TraceabilityRow.fs_title := Some "Signature dialog";
     TraceabilityRow.fs_status := Some "Approved";
     TraceabilityRow.ds_id := None;
     TraceabilityRow.ds_title := None;
     TraceabilityRow.tc_id := Some tc;
     TraceabilityRow.tc_title := Some "Sign a record";
     TraceabilityRow.tc_type := Some "OQ";
     TraceabilityRow.exec_id := Some ("EXEC-" +:+ tc);
     TraceabilityRow.exec_result := exec_result;
     TraceabilityRow.exec_date := Some "2024-03-04T09:00:00";
     TraceabilityRow.deviation_id := None;
     TraceabilityRow.deviation_status := None;
     TraceabilityRow.status := status |}.

(** The row of a failed test case with the open deviation DEV-001. *)
Definition row_with_deviation : TraceabilityRow.t :=
  {| TraceabilityRow.urs_id := "URS-001";
     TraceabilityRow.urs_title := "Electronic signature";
     TraceabilityRow.urs_status := "Approved";
     TraceabilityRow.urs_risk := "High";
     TraceabilityRow.fs_id := Some "FS-001";
     TraceabilityRow.fs_title := Some "Signature dialog";
     TraceabilityRow.fs_status := Some "Approved";
     TraceabilityRow.ds_id := None;
     TraceabilityRow.ds_title := None;
     TraceabilityRow.tc_id := Some "TC-001";
     TraceabilityRow.tc_title := Some "Sign a record";
     TraceabilityRow.tc_type := Some "OQ";
     TraceabilityRow.exec_id := Some "EXEC-001";
     TraceabilityRow.exec_result := Some "Fail";
     TraceabilityRow.exec_date := Some "2024-03-04T09:00:00";
     TraceabilityRow.deviation_id := Some "DEV-001";
     TraceabilityRow.deviation_status := Some "Open";
     TraceabilityRow.status := Failed |}.

(** One requirement whose two test cases both passed: two Complete rows. *)
Definition matrix_two_complete_rows : list TraceabilityRow.t :=
  [ row "URS-001" "TC-001" (Some "Pass") Complete;
    row "URS-001" "TC-002" (Some "Pass") Complete ].

(** Forty executions of TC-001, EXEC-1 to EXEC-40, one per test cycle:
    the first 23 passed, the other 17 failed. *)
Definition run_of_cycle (n : nat) : TestExecution.t :=
  execution ("EXEC-" +:+ pretty n) "TC-001" (Z.of_nat n)
    (1709542800000 + 86400000 * Z.of_nat n)
    (if bool_decide (n ≤ 23)%nat then Pass else Fail).

Definition forty_runs : list TestExecution.t := run_of_cycle <$> seq 1 40.

(** Two executions of TC-001 recorded at the same instant; the re-run of
    cycle 2 comes second in the loaded list. *)
Definition first_run : TestExecution.t :=
  execution "EXEC-001" "TC-001" 1 1709542800000 Fail.
Definition second_run : TestExecution.t :=
  execution "EXEC-002" "TC-001" 2 1709542800000 Pass.

(** The deviation form filled in, with no test execution selected. *)
Definition form_without_execution : DeviationPage.FormValues :=
  {| DeviationPage.test_execution_id := None;
     DeviationPage.deviation_type := Some "Process";
     DeviationPage.severity := Some Medium;
     DeviationPage.title := Some "Unsigned batch record";
     DeviationPage.description := Some "A page of the record is unsigned" |}.

(** A deviation raised on EXEC-001. *)
Definition deviation (id : string) (status : DeviationStatus) : Deviation.t :=
  {| Deviation.id := id;
     Deviation.test_execution_id := "EXEC-001";
     Deviation.project_id := "PRJ-001";
     Deviation.deviation_type := "Test Failure";
     Deviation.severity := High;
     Deviation.title := "Signature not shown";
     Deviation.description := "The signed record shows no signature";
     Deviation.root_cause := "";
     Deviation.root_cause_category := "";
     Deviation.root_cause_ai_suggested := false;
     Deviation.investigation_summary := "";
     Deviation.capa_corrective := "";
     Deviation.capa_preventive := "";
     Deviation.capa_due_date := None;
     Deviation.effectiveness_criteria := "";
     Deviation.effectiveness_verified := false;
     Deviation.effectiveness_evidence := "";
     Deviation.status := status;
     Deviation.assigned_to := None;
     Deviation.created_at := "2024-03-05T09:00:00";
     Deviation.created_by := "executor@pharma.com";
     Deviation.closed_by := None;
     Deviation.closed_at := None |}.

(** What the server holds for project PRJ-001. *)
Definition server : TraceabilityPage.Server :=
  {| TraceabilityPage.ursById :=
       λ id, if decide (id = "URS-001")
             then Some (requirement "URS-001" URS_Approved) else None;
     TraceabilityPage.fsByProject := Some [fs "FS-001" FS_Approved];
     TraceabilityPage.tcByProject := Some [testCase "TC-001"];
     TraceabilityPage.execByProject := Some [first_run; second_run];
     TraceabilityPage.devByProject := Some [deviation "DEV-001" Dev_Open] |}.

Definition closedDrawer : TraceabilityPage.DrawerState :=
  {| TraceabilityPage.type := None;
     TraceabilityPage.id := None;
     TraceabilityPage.data := None;
     TraceabilityPage.loading := false |}.

(** The first run of TC-001 and a re-run one day later. *)
Definition earlier_run : TestExecution.t :=
  execution "EXEC-001" "TC-001" 1 1709542800000 Fail.
Definition later_run : TestExecution.t :=
  execution "EXEC-002" "TC-001" 2 1709629200000 Pass.

End Sample.

(** * Properties *)

(** ** Rounding *)

(** [Math.round] rounds halves upwards, also below zero, and keeps the
    sign of a negative argument that rounds to zero. *)
Example Math_round_halves :
  Js.Math_round 2.5%float = 3%float
  ∧ Js.Math_round (-2.5)%float = (-2)%float
  ∧ Js.Math_round 2.25%float = 2%float
  ∧ Js.Math_round (-2.75)%float = (-3)%float
  ∧ Js.Math_round (-0.25)%float = neg_zero
  ∧ Js.Math_round 0x1.fffffffffffffp-2%float = 0%float.
Proof. repeat split; vm_compute; reflexivity. Qed.

(** A percentage is the rounded product of a binary64 quotient and 100:
    for 23 out of 40 the product is just below 57.5 and rounds to 57. *)
Example percentage_of_23_in_40 :
  Js.Math_round (Js.num 23 / Js.num 40 * 100)%float = 57%float
  ∧ Js.Math_round (Js.num 1 / Js.num 8 * 100)%float = 13%float.
Proof. split; vm_compute; reflexivity. Qed.

(** ** Project progress *)

(** C9: for the status at index [i] of the stage list the progress is
    [round (100 * i / 5)]; On Hold is not in the list, its index is [-1]
    and its progress is [-20], a negative percentage. *)
Theorem getProgressPercent_by_stage_index :
  (∀ (i : nat) (status : ProjectStatus),
     DashboardPage.stages !! i = Some status →
     Js.indexOf DashboardPage.stages status = Z.of_nat i
     ∧ DashboardPage.getProgressPercent status
       = Js.num (DashboardPage.round_ratio (100 * Z.of_nat i) 5))
  ∧ (OnHold ∉ DashboardPage.stages)
  ∧ Js.indexOf DashboardPage.stages OnHold = -1
  ∧ DashboardPage.getProgressPercent OnHold = Js.num (-20)
  ∧ (DashboardPage.getProgressPercent OnHold <? 0)%float = true.
Proof.
  split.
  - intros i status Hi.
    do 6 (destruct i as [|i];
          [injection Hi as <-; split; vm_compute; reflexivity|]).
    discriminate Hi.
  - split.
    + unfold DashboardPage.stages. rewrite !elem_of_cons, elem_of_nil.
      intros H. repeat (destruct H as [H|H]; [discriminate H|]). exact H.
    + repeat split; vm_compute; reflexivity.
Qed.

(** ** Role gates *)

(** A QA user is offered the approval of a Draft requirement and of a
    Draft FS and cannot start a test execution; for an Executor it is
    the other way round. *)
Example gates_of_QA_and_Executor :
  URSPage.approveVisible (Sample.requirement "URS-001" URS_Draft)
    (Some Sample.qa) = true
  ∧ FSPage.approveVisible (Sample.fs "FS-001" FS_Draft) (Some Sample.qa) = true
  ∧ TestManagementPage.executeDisabled (Some Sample.qa)
      (Sample.testCase "TC-001") = true
  ∧ URSPage.approveVisible (Sample.requirement "URS-001" URS_Draft)
      (Some Sample.executor) = false
  ∧ TestManagementPage.executeDisabled (Some Sample.executor)
      (Sample.testCase "TC-001") = false.
Proof. repeat split; reflexivity. Qed.

(** C4, as stated, fails: an Admin looking at a Draft requirement is not
    offered the approve action. *)
Lemma admin_is_not_offered_approve :
  Requirement.status (Sample.requirement "URS-001" URS_Draft) ≠ URS_Approved
  ∧ ¬ (URSPage.approveVisible (Sample.requirement "URS-001" URS_Draft)
         (Some Sample.admin) = true
       ↔ role_of (Some Sample.admin) = Some QA
         ∨ role_of (Some Sample.admin) = Some Admin).
Proof.
  split; [discriminate|].
  intros [_ H]. specialize (H (or_intror eq_refl)). discriminate H.
Qed.

(** C4, amended: on every page the approve control of an artifact
    (requirement, FS, DS, system boundary) is shown exactly when the
    artifact is not yet Approved and the role of the current user is QA. *)
Theorem approve_control_is_QA_only (user : option User) :
  (∀ u, URSPage.approveVisible u user = true
        ↔ Requirement.status u ≠ URS_Approved ∧ role_of user = Some QA)
  ∧ (∀ f, URSPage.approveFSVisible f user = true
          ↔ FunctionalSpecification.status f ≠ FS_Approved
            ∧ role_of user = Some QA)
  ∧ (∀ f, FSPage.approveVisible f user = true
          ↔ FunctionalSpecification.status f ≠ FS_Approved
            ∧ role_of user = Some QA)
  ∧ (∀ f, FSPage.drawerApproveVisible (Some f) user = true
          ↔ FunctionalSpecification.status f ≠ FS_Approved
            ∧ role_of user = Some QA)
  ∧ (∀ d, DSPage.approveVisible d user = true
          ↔ DesignSpecification.status d ≠ DS_Approved
            ∧ role_of user = Some QA)
  ∧ (∀ d, DSPage.drawerApproveVisible (Some d) user = true
          ↔ DesignSpecification.status d ≠ DS_Approved
            ∧ role_of user = Some QA)
  ∧ (∀ b, SystemBoundaryPage.approveVisible b user = true
          ↔ SystemBoundary.status b ≠ "Approved" ∧ role_of user = Some QA).
Proof.
  unfold URSPage.approveVisible, URSPage.approveFSVisible,
    FSPage.approveVisible, FSPage.drawerApproveVisible,
    DSPage.approveVisible, DSPage.drawerApproveVisible,
    SystemBoundaryPage.approveVisible.
  repeat match goal with |- _ ∧ _ => split end; intros x;
    rewrite andb_true_iff, !bool_decide_eq_true; simpl;
    split; intros [Hstatus Hrole]; split; try assumption; congruence.
Qed.

(** C6: the Execute button of a test case is enabled exactly for the roles
    Executor and Admin; a click opens the execution form for that test
    case when it is enabled and does nothing otherwise. *)
Theorem execute_enabled_iff_executor_or_admin
    (user : option User) (tc : TestCase.t) :
  (TestManagementPage.executeDisabled user tc = false
   ↔ role_of user = Some Executor ∨ role_of user = Some Admin)
  ∧ ∀ st, TestManagementPage.clickExecute user tc st
          = if bool_decide (role_of user = Some Executor
                            ∨ role_of user = Some Admin)
            then {| TestManagementPage.selectedTC := Some tc;
                    TestManagementPage.execModalVisible := true |}
            else st.
Proof.
  unfold TestManagementPage.clickExecute, TestManagementPage.executeDisabled.
  destruct user as [[m []]|]; simpl; split; try intros st;
    try reflexivity; split; intros H; try reflexivity; try discriminate H;
    try (left; reflexivity); try (right; reflexivity);
    destruct H as [H|H]; discriminate H.
Qed.

(** ** Deviation column of the traceability matrix *)

(** C8: in a row with no linked deviation the marker Expected is shown
    exactly when the execution result of the row is Fail. *)
Theorem expected_marker_iff_fail (row : TraceabilityRow.t) :
  Js.truthy (TraceabilityRow.deviation_id row) = false →
  TraceabilityPage.deviationColumn row = TraceabilityPage.ExpectedTag
  ↔ TraceabilityRow.exec_result row = Some "Fail".
Proof.
  intros Hnone.
  unfold TraceabilityPage.deviationColumn, TraceabilityPage.renderDeviation.
  rewrite Hnone. case_bool_decide as Hres; split; intros H;
    try reflexivity; try assumption; try discriminate H; contradiction.
Qed.

Lemma expected_marker_iff_fail_witness :
  Js.truthy (TraceabilityRow.deviation_id
               (Sample.row "URS-001" "TC-001" (Some "Fail") Failed)) = false
  ∧ (TraceabilityPage.deviationColumn
       (Sample.row "URS-001" "TC-001" (Some "Fail") Failed)
     = TraceabilityPage.ExpectedTag
     ↔ TraceabilityRow.exec_result
         (Sample.row "URS-001" "TC-001" (Some "Fail") Failed) = Some "Fail").
Proof.
  split; [reflexivity|].
  apply (expected_marker_iff_fail
           (Sample.row "URS-001" "TC-001" (Some "Fail") Failed)).
  reflexivity.
Defined.

(** ** Creation forms *)

Section Filtered.
Context {A : Type} (P : A → Prop) `{!∀ x, Decision (P x)}.

(** [xs.filter(p).length === 0] holds exactly when no element passes. *)
Lemma length_filter_zero (xs : list A) :
  Js.length (filter P xs) = 0 ↔ ∀ x, x ∈ xs → ¬ P x.
Proof.
  unfold Js.length. split.
  - intros Hlen x Hx HP.
    assert (Hnil : filter P xs = []) by (apply nil_length_inv; lia).
    exact (filter_nil_not_elem_of P xs x Hnil HP Hx).
  - intros Hnone. induction xs as [|y ys IH]; [reflexivity|].
    rewrite filter_cons_False by (apply Hnone; left).
    apply IH. intros x Hx. apply Hnone. right. exact Hx.
Qed.

(** Entries of [xs.filter(p).map(f)]. *)
Lemma elem_of_map_filter {B : Type} (f : A → B) (xs : list A) (y : B) :
  y ∈ f <$> filter P xs ↔ ∃ x, x ∈ xs ∧ P x ∧ y = f x.
Proof.
  rewrite list_elem_of_fmap. split.
  - intros (x & -> & Hx). apply list_elem_of_filter in Hx as [HP Hx]. eauto.
  - intros (x & Hx & HP & ->). exists x. split; [reflexivity|].
    apply list_elem_of_filter. auto.
Qed.

End Filtered.

(** Of a Draft and an Approved requirement only the second is offered. *)
Example ursOptions_of_draft_and_approved :
  FSPage.ursOptions
    [ Sample.requirement "URS-001" URS_Draft;
      Sample.requirement "URS-002" URS_Approved ]
  = [ {| value := "URS-002"; label := "URS-002: Electronic signature" |} ]
  ∧ FSPage.newFSDisabled [ Sample.requirement "URS-001" URS_Draft ] = true.
Proof. split; reflexivity. Qed.

(** C5: the FS form offers exactly the requirements with status Approved
    as parents, and New FS is disabled exactly when there is none; the DS
    form offers exactly the FSs with status Approved, and New DS is
    disabled exactly when there is none. *)
Theorem creation_forms_offer_approved_parents
    (ursList : list Requirement.t) (fsList : list FunctionalSpecification.t) :
  (∀ u, u ∈ FSPage.approvedURS ursList
        ↔ u ∈ ursList ∧ Requirement.status u = URS_Approved)
  ∧ (∀ o, o ∈ FSPage.ursOptions ursList
          ↔ ∃ u, u ∈ ursList ∧ Requirement.status u = URS_Approved
                 ∧ o = {| value := Requirement.id u;
                          label := Requirement.id u +:+ ": "
                                   +:+ Requirement.title u |})
  ∧ (FSPage.newFSDisabled ursList = true
     ↔ ∀ u, u ∈ ursList → Requirement.status u ≠ URS_Approved)
  ∧ (∀ f, f ∈ DSPage.approvedFS fsList
          ↔ f ∈ fsList ∧ FunctionalSpecification.status f = FS_Approved)
  ∧ (∀ o, o ∈ DSPage.fsOptions fsList
          ↔ ∃ f, f ∈ fsList ∧ FunctionalSpecification.status f = FS_Approved
                 ∧ o = {| value := FunctionalSpecification.id f;
                          label := FunctionalSpecification.id f +:+ ": "
                                   +:+ FunctionalSpecification.title f |})
  ∧ (DSPage.newDSDisabled fsList = true
     ↔ ∀ f, f ∈ fsList → FunctionalSpecification.status f ≠ FS_Approved).
Proof.
  unfold FSPage.ursOptions, FSPage.newFSDisabled, FSPage.approvedURS,
    DSPage.fsOptions, DSPage.newDSDisabled, DSPage.approvedFS.
  repeat match goal with |- _ ∧ _ => split end.
  - intros u. rewrite list_elem_of_filter. tauto.
  - intros o. apply elem_of_map_filter.
  - rewrite bool_decide_eq_true. apply length_filter_zero.
  - intros f. rewrite list_elem_of_filter. tauto.
  - intros o. apply elem_of_map_filter.
  - rewrite bool_decide_eq_true. apply length_filter_zero.
Qed.

(** ** Logging a deviation *)

Lemma required_Some (v : option string) (s : string) :
  DeviationPage.required v = Some s ↔ v = Some s ∧ s ≠ "".
Proof.
  unfold DeviationPage.required. destruct v as [t|]; simpl.
  - destruct (decide (t = "")) as [->|Hne]; split.
    + discriminate.
    + intros [[= <-] Hne]. contradiction.
    + intros [= <-]. auto.
    + intros [[= <-] _]. reflexivity.
  - split; [discriminate|]. intros [H _]. discriminate H.
Qed.

(** C7, as stated, fails: with every other field filled in, a form that
    omits the test execution is not submitted. *)
Lemma deviation_without_execution_is_rejected :
  DeviationPage.test_execution_id Sample.form_without_execution = None
  ∧ DeviationPage.submit Sample.form_without_execution = None.
Proof. split; reflexivity. Qed.

(** C7, amended: a deviation is logged only with a test execution
    selected (the field is required), and the executions offered for
    linking are exactly those whose result is Fail. *)
Theorem deviation_requires_a_failed_execution (execs : list TestExecution.t) :
  (∀ values d,
     DeviationPage.submit values = Some d →
     DeviationPage.test_execution_id values
     = Some (DeviationCreate.test_execution_id d)
     ∧ DeviationCreate.test_execution_id d ≠ "")
  ∧ (∀ values,
       DeviationPage.test_execution_id values = None →
       DeviationPage.submit values = None)
  ∧ (∀ e, e ∈ DeviationPage.loadedExecutions execs
          ↔ e ∈ execs ∧ TestExecution.result e = Fail)
  ∧ (∀ o, o ∈ DeviationPage.executionOptions
                (DeviationPage.loadedExecutions execs)
          ↔ ∃ e, e ∈ execs ∧ TestExecution.result e = Fail
                 ∧ o = {| value := TestExecution.id e;
                          label := TestExecution.id e +:+ " - "
                                   +:+ TestExecution.test_case_id e |}).
Proof.
  repeat match goal with |- _ ∧ _ => split end.
  - intros values d. unfold DeviationPage.submit.
    destruct (DeviationPage.required (DeviationPage.test_execution_id values))
      as [e|] eqn:He; simpl; [|discriminate].
    apply required_Some in He as [He Hne].
    destruct (DeviationPage.required (DeviationPage.deviation_type values));
      simpl; [|discriminate].
    destruct (DeviationPage.severity values); simpl; [|discriminate].
    destruct (DeviationPage.required (DeviationPage.title values));
      simpl; [|discriminate].
    destruct (DeviationPage.required (DeviationPage.description values));
      simpl; [|discriminate].
    intros [= <-]. simpl. auto.
  - intros values Hnone. unfold DeviationPage.submit. rewrite Hnone.
    reflexivity.
  - intros e. unfold DeviationPage.loadedExecutions.
    rewrite list_elem_of_filter. tauto.
  - intros o. apply elem_of_map_filter.
Qed.

(** ** Sets of ids *)

(** [new Set(xs).size] is the number of distinct elements of [xs]. *)
Lemma Set_size_distinct (xs : list string) :
  Js.Set_size xs = Z.of_nat (length (remove_dups xs)).
Proof.
  unfold Js.Set_size. f_equal.
  rewrite <- (size_list_to_set (C := gset string) (remove_dups xs))
    by apply NoDup_remove_dups.
  f_equal. apply set_eq. intros x.
  rewrite !elem_of_list_to_set, elem_of_remove_dups. reflexivity.
Qed.

(** Without repetitions the size of the set is the length of the array. *)
Lemma Set_size_NoDup (xs : list string) :
  NoDup xs → Js.Set_size xs = Js.length xs.
Proof.
  intros Hnd. unfold Js.Set_size, Js.length. f_equal.
  apply size_list_to_set. exact Hnd.
Qed.

(** A non-empty array that repeats one id gives a set of size one. *)
Lemma Set_size_constant {A : Type} (f : A → string) (xs : list A) (s : string) :
  xs ≠ [] → (∀ x, x ∈ xs → f x = s) → Js.Set_size (f <$> xs) = 1.
Proof.
  intros Hne Hall. unfold Js.Set_size.
  assert (Heq : list_to_set (f <$> xs) = ({[ s ]} : gset string)).
  { apply set_eq. intros y.
    rewrite elem_of_list_to_set, list_elem_of_fmap, elem_of_singleton. split.
    - intros (x & -> & Hx). apply Hall. exact Hx.
    - intros ->. destruct xs as [|x xs']; [contradiction|].
      exists x. split; [symmetry; apply Hall|]; left. }
  rewrite Heq, size_singleton. reflexivity.
Qed.

(** ** Test statistics *)

(** C10: Pending Execution is the number of loaded test cases minus the
    number of distinct test-case ids among the loaded executions.  An
    execution counts for its test case whatever its result, so a single
    test case whose executions are all Not Executed gives zero pending;
    and the statistic is negative when the executions reference more
    distinct ids than there are test cases. *)
Theorem pending_execution_statistic
    (testCases : list TestCase.t) (executions : list TestExecution.t) :
  TestManagementPage.notExecuted (TestManagementPage.stats testCases executions)
  = Z.of_nat (length testCases)
    - Z.of_nat (length (TestManagementPage.executed_ids executions))
  ∧ (∀ e, e ∈ executions →
          TestExecution.test_case_id e
          ∈ TestManagementPage.executed_ids executions)
  ∧ (∀ tc,
       executions ≠ [] →
       (∀ e, e ∈ executions →
             TestExecution.test_case_id e = TestCase.id tc
             ∧ TestExecution.result e = NotExecuted) →
       TestManagementPage.notExecuted
         (TestManagementPage.stats [tc] executions) = 0)
  ∧ ((length testCases
      < length (TestManagementPage.executed_ids executions))%nat →
     TestManagementPage.notExecuted
       (TestManagementPage.stats testCases executions) < 0).
Proof.
  unfold TestManagementPage.stats, TestManagementPage.executed_ids,
    Js.length; simpl.
  repeat match goal with |- _ ∧ _ => split end.
  - rewrite Set_size_distinct. reflexivity.
  - intros e He. apply elem_of_remove_dups, list_elem_of_fmap_2, He.
  - intros tc Hne Hall.
    rewrite (Set_size_constant _ executions (TestCase.id tc) Hne);
      [reflexivity|].
    intros e He. apply Hall, He.
  - intros Hlt. rewrite Set_size_distinct. lia.
Qed.

(** [xs.filter(p).length] against the recursive count. *)
Lemma length_filter_count (p : TestResult → bool)
    (P : TestExecution.t → Prop) `{!∀ e, Decision (P e)}
    (executions : list TestExecution.t) :
  (∀ e, P e ↔ p (TestExecution.result e) = true) →
  Js.length (filter P executions)
  = TestManagementPage.count_results p executions.
Proof.
  intros HP. unfold Js.length.
  induction executions as [|e rest IH]; [reflexivity|].
  rewrite filter_cons. simpl TestManagementPage.count_results.
  destruct (decide (P e)) as [Hp|Hp].
  - apply HP in Hp. rewrite Hp. simpl length. lia.
  - destruct (p (TestExecution.result e)) eqn:Hpe.
    + exfalso. apply Hp, HP, Hpe.
    + lia.
Qed.

(** The page's expression, with [passed] and [executed] as recursive
    counts: [Math.round (passed / max (1, executed) * 100)] over binary64
    numbers with at least one test case loaded, [0] with none. *)
Lemma passRate_formula
    (testCases : list TestCase.t) (executions : list TestExecution.t) :
  TestManagementPage.passRate testCases executions
  = match testCases with
    | [] => 0%float
    | _ :: _ =>
        Js.Math_round
          (Js.num
             (TestManagementPage.count_results
                TestManagementPage.is_pass executions)
           / Js.num
               (Z.max 1
                  (TestManagementPage.count_results
                     TestManagementPage.is_executed executions))
           * 100)%float
    end.
Proof.
  unfold TestManagementPage.passRate, TestManagementPage.stats; simpl.
  destruct testCases as [|tc rest]; [reflexivity|].
  replace (0 <? Js.length (tc :: rest)) with true
    by (symmetry; apply Z.ltb_lt; unfold Js.length; simpl length; lia).
  rewrite (length_filter_count TestManagementPage.is_pass),
    (length_filter_count TestManagementPage.is_executed), Z.max_comm.
  - reflexivity.
  - intros e. destruct (TestExecution.result e); simpl; split;
      congruence.
  - intros e. destruct (TestExecution.result e); simpl; split;
      congruence.
Qed.

(** Passed executions are among the executed ones. *)
Lemma count_pass_le_executed (executions : list TestExecution.t) :
  0 ≤ TestManagementPage.count_results TestManagementPage.is_pass executions
  ∧ TestManagementPage.count_results TestManagementPage.is_pass executions
    ≤ TestManagementPage.count_results
        TestManagementPage.is_executed executions.
Proof.
  induction executions as [|e rest IH]; simpl; [lia|].
  destruct (TestExecution.result e); simpl; lia.
Qed.

(** Every percentage of [p] in [d] with [0 <= p <= d <= 200], computed
    as the pages do, compares equal to an integer that [shown] finds:
    checked by running the binary64 computation on each of the pairs. *)
Lemma shown_up_to_200 : Percent.shown_up_to 200 = true.
Proof. vm_compute. reflexivity. Qed.

Lemma shown_up_to_is_Some (N : nat) (p d : Z) :
  Percent.shown_up_to N = true →
  1 ≤ d ≤ Z.of_nat N → 0 ≤ p ≤ d → is_Some (Percent.shown p d).
Proof.
  unfold Percent.shown_up_to. intros Hall Hd Hp.
  rewrite forallb_forall in Hall.
  specialize (Hall (Z.to_nat (d - 1))).
  rewrite in_seq, forallb_forall in Hall.
  specialize (Hall ltac:(lia) (Z.to_nat p)).
  rewrite in_seq in Hall. specialize (Hall ltac:(lia)).
  apply bool_decide_eq_true in Hall.
  replace (Z.of_nat (S (Z.to_nat (d - 1)))) with d in Hall by lia.
  replace (Z.of_nat (Z.to_nat p)) with p in Hall by lia.
  exact Hall.
Qed.

Lemma shown_is_Some (p d : Z) :
  1 ≤ d ≤ 200 → 0 ≤ p ≤ d → is_Some (Percent.shown p d).
Proof.
  intros Hd Hp. apply (shown_up_to_is_Some 200); [|lia|lia].
  exact shown_up_to_200.
Qed.

(** What [shown] finds is the integer the percentage compares equal to,
    it lies between 0 and 100, and it is the nearest integer to the
    exact ratio up to the direction at a half. *)
Lemma shown_nearest (p d r : Z) :
  Percent.shown p d = Some r →
  (Percent.percent p d =? Js.num r)%float = true
  ∧ 0 ≤ r ≤ 100 ∧ Percent.nearest p d r.
Proof.
  unfold Percent.shown, Percent.nearest; cbv zeta. intros Hshown.
  destruct ((0 <=? DashboardPage.round_ratio (100 * p) d)
            && (DashboardPage.round_ratio (100 * p) d <=? 100)
            && (Percent.percent p d
                =? Js.num (DashboardPage.round_ratio (100 * p) d))%float)
    eqn:Hup.
  - injection Hshown as <-.
    apply andb_true_iff in Hup as [Hrange Heq].
    apply andb_true_iff in Hrange as [Hlo Hhi].
    apply Z.leb_le in Hlo, Hhi. auto.
  - destruct ((1 <=? DashboardPage.round_ratio (100 * p) d)
              && (DashboardPage.round_ratio (100 * p) d <=? 101)
              && (Percent.percent p d
                  =? Js.num (DashboardPage.round_ratio (100 * p) d - 1))%float
              && ((200 * p) mod (2 * d) =? d)) eqn:Hdown;
      [|discriminate Hshown].
    injection Hshown as <-.
    apply andb_true_iff in Hdown as [Hdown Hhalf].
    apply andb_true_iff in Hdown as [Hrange Heq].
    apply andb_true_iff in Hrange as [Hlo Hhi].
    apply Z.leb_le in Hlo, Hhi. apply Z.eqb_eq in Hhalf.
    split; [exact Heq|]. split; [lia|]. right. auto.
Qed.

(** C3 (counterexample): one test case with forty executions, 23 passed
    and 17 failed.  The page shows a pass rate of 57, the binary64
    product [23 / 40 * 100] being just below 57.5, where
    [round (100 * 23 / max (1, 40))] is 58. *)
Lemma pass_rate_of_23_in_40_is_57 :
  TestManagementPage.count_results
    TestManagementPage.is_pass Sample.forty_runs = 23
  ∧ TestManagementPage.count_results
      TestManagementPage.is_executed Sample.forty_runs = 40
  ∧ TestManagementPage.passRate [Sample.testCase "TC-001"] Sample.forty_runs
    = 57%float
  ∧ DashboardPage.round_ratio (100 * 23) (Z.max 1 40) = 58
  ∧ TestManagementPage.passRate_by_ratio
      [Sample.testCase "TC-001"] Sample.forty_runs = 58%float
  ∧ TestManagementPage.passRate [Sample.testCase "TC-001"] Sample.forty_runs
    ≠ TestManagementPage.passRate_by_ratio
        [Sample.testCase "TC-001"] Sample.forty_runs.
Proof.
  repeat split; try (vm_compute; reflexivity).
  intros Heq.
  pose proof (f_equal (λ x, (x =? 58)%float) Heq) as Hcmp.
  vm_compute in Hcmp. discriminate Hcmp.
Qed.

(** C3: with no test case loaded the pass rate is [0], whatever the
    executions.  With at least one it is the binary64 number
    [Math.round (passed / max (1, executed) * 100)], where [passed]
    counts the executions with result Pass and [executed] those whose
    result is not Not Executed: the quotient is rounded to binary64
    before it is multiplied by 100.  For up to 200 executed runs that
    number is an integer between 0 and 100, namely
    [round (100 * passed / max (1, executed))], or one less than that
    where the exact ratio lies halfway between two integers. *)
Theorem passRate_rounds_the_binary64_quotient
    (testCases : list TestCase.t) (executions : list TestExecution.t) :
  match testCases with
  | [] => TestManagementPage.passRate testCases executions = 0%float
  | _ :: _ =>
      TestManagementPage.passRate testCases executions
      = Percent.percent
          (TestManagementPage.count_results
             TestManagementPage.is_pass executions)
          (Z.max 1
             (TestManagementPage.count_results
                TestManagementPage.is_executed executions))
      ∧ (TestManagementPage.count_results
           TestManagementPage.is_executed executions ≤ 200 →
         ∃ r : Z,
           (TestManagementPage.passRate testCases executions =? Js.num r)%float
           = true
           ∧ 0 ≤ r ≤ 100
           ∧ Percent.nearest
               (TestManagementPage.count_results
                  TestManagementPage.is_pass executions)
               (Z.max 1
                  (TestManagementPage.count_results
                     TestManagementPage.is_executed executions))
               r)
  end.
Proof.
  rewrite passRate_formula.
  destruct testCases as [|tc rest]; [reflexivity|].
  split; [reflexivity|]. intros Hbound.
  pose proof (count_pass_le_executed executions) as [Hpos Hle].
  destruct (shown_is_Some
              (TestManagementPage.count_results
                 TestManagementPage.is_pass executions)
              (Z.max 1
                 (TestManagementPage.count_results
                    TestManagementPage.is_executed executions)))
    as [r Hr]; [lia|lia|].
  exists r. apply shown_nearest, Hr.
Qed.

Lemma passRate_rounds_the_binary64_quotient_witness :
  ∃ r : Z,
    (TestManagementPage.passRate [Sample.testCase "TC-001"] Sample.forty_runs
     =? Js.num r)%float = true
    ∧ 0 ≤ r ≤ 100
    ∧ Percent.nearest
        (TestManagementPage.count_results
           TestManagementPage.is_pass Sample.forty_runs)
        (Z.max 1
           (TestManagementPage.count_results
              TestManagementPage.is_executed Sample.forty_runs))
        r.
Proof.
  refine (proj2 (passRate_rounds_the_binary64_quotient
                   [Sample.testCase "TC-001"] Sample.forty_runs) _).
  apply Z.leb_le. vm_compute. reflexivity.
Defined.

(** ** Traceability coverage *)

(** C1: on the matrix of one requirement with two Complete rows the page
    shows a coverage of 200 percent, where the rounded ratio of
    requirements with a Complete row to distinct requirements is 100. *)
Theorem coverage_counts_every_complete_row :
  TraceabilityPage.total
    (TraceabilityPage.stats Sample.matrix_two_complete_rows) = 1
  ∧ TraceabilityPage.complete
      (TraceabilityPage.stats Sample.matrix_two_complete_rows) = 2
  ∧ TraceabilityPage.complete_requirements Sample.matrix_two_complete_rows = 1
  ∧ TraceabilityPage.coverage Sample.matrix_two_complete_rows = 200%float
  ∧ TraceabilityPage.coverage_by_requirement Sample.matrix_two_complete_rows
    = 100%float.
Proof. repeat split; vm_compute; reflexivity. Qed.

(** As long as no requirement has two Complete rows the page's numerator
    is the specification's: the number of Complete rows is the number of
    requirements with a Complete row. *)
Lemma complete_rows_of_distinct_requirements
    (matrix : list TraceabilityRow.t) :
  NoDup (TraceabilityRow.urs_id
           <$> filter (λ r, TraceabilityRow.status r = Complete) matrix) →
  TraceabilityPage.complete (TraceabilityPage.stats matrix)
  = TraceabilityPage.complete_requirements matrix.
Proof.
  intros Hnd.
  unfold TraceabilityPage.complete_requirements, TraceabilityPage.stats; simpl.
  rewrite (Set_size_NoDup _ Hnd). unfold Js.length.
  rewrite length_fmap. reflexivity.
Qed.

(** The requirements with a Complete row are among the requirements. *)
Lemma complete_requirements_le_total (matrix : list TraceabilityRow.t) :
  0 ≤ TraceabilityPage.complete_requirements matrix
  ∧ TraceabilityPage.complete_requirements matrix
    ≤ TraceabilityPage.total (TraceabilityPage.stats matrix).
Proof.
  unfold TraceabilityPage.complete_requirements, TraceabilityPage.stats,
    Js.Set_size; simpl.
  split; [lia|]. apply inj_le, subseteq_size.
  intros x. rewrite !elem_of_list_to_set, !list_elem_of_fmap.
  intros (r & -> & Hr). apply list_elem_of_filter in Hr as [_ Hr]. eauto.
Qed.

(** For up to 200 requirements, none of them with two Complete rows, the
    page shows the specification's percentage, or one less where the
    exact ratio lies halfway between two integers. *)
Lemma coverage_of_distinct_complete_rows (matrix : list TraceabilityRow.t) :
  NoDup (TraceabilityRow.urs_id
           <$> filter (λ r, TraceabilityRow.status r = Complete) matrix) →
  TraceabilityPage.total (TraceabilityPage.stats matrix) ≤ 200 →
  ∃ r : Z,
    (TraceabilityPage.coverage matrix =? Js.num r)%float = true
    ∧ (TraceabilityPage.coverage_by_requirement matrix = Js.num r
       ∨ (TraceabilityPage.coverage_by_requirement matrix = Js.num (r + 1)
          ∧ (200 * TraceabilityPage.complete_requirements matrix)
              mod (2 * TraceabilityPage.total (TraceabilityPage.stats matrix))
            = TraceabilityPage.total (TraceabilityPage.stats matrix))).
Proof.
  intros Hnd Hbound.
  unfold TraceabilityPage.coverage, TraceabilityPage.coverage_by_requirement.
  rewrite (complete_rows_of_distinct_requirements _ Hnd).
  destruct (0 <? TraceabilityPage.total (TraceabilityPage.stats matrix))
    eqn:Ht.
  - apply Z.ltb_lt in Ht.
    pose proof (complete_requirements_le_total matrix) as [Hpos Hle].
    destruct (shown_is_Some
                (TraceabilityPage.complete_requirements matrix)
                (TraceabilityPage.total (TraceabilityPage.stats matrix)))
      as [r Hr]; [lia|lia|].
    apply shown_nearest in Hr as (Heq & _ & [->|[-> Hhalf]]).
    + eexists. split; [exact Heq|]. left. reflexivity.
    + eexists. split; [exact Heq|]. right. split; [|exact Hhalf].
      f_equal. lia.
  - exists 0. split; [vm_compute; reflexivity|]. left. reflexivity.
Qed.

(** ** Sorting *)

Section Sort.
Context {A : Type} (cmp : A → A → Z).

Lemma insert_sorted_Permutation (x : A) (xs : list A) :
  Js.insert_sorted cmp x xs ≡ₚ x :: xs.
Proof.
  induction xs as [|y ys IH]; simpl; [reflexivity|].
  destruct (0 <? cmp x y); [|reflexivity].
  rewrite IH. apply Permutation_swap.
Qed.

Lemma sort_Permutation (xs : list A) : Js.sort cmp xs ≡ₚ xs.
Proof.
  induction xs as [|x xs IH]; simpl; [reflexivity|].
  rewrite insert_sorted_Permutation, IH. reflexivity.
Qed.

(** The first element after an insertion: the old head stays in front
    only when the new element compares strictly greater. *)
Lemma head_insert_sorted (x : A) (xs : list A) :
  head (Js.insert_sorted cmp x xs)
  = Some match head xs with
         | Some y => if 0 <? cmp x y then y else x
         | None => x
         end.
Proof.
  destruct xs as [|y ys]; simpl; [reflexivity|].
  destruct (0 <? cmp x y); reflexivity.
Qed.

End Sort.

Section SortByKey.
Context {A : Type} (key : A → Z).

(** With the comparator [(a, b) => key(b) - key(a)] the result is in
    descending order of the key. *)
Lemma sort_descending (xs : list A) :
  Sorted (λ a b, key b ≤ key a) (Js.sort (λ a b, key b - key a) xs).
Proof.
  induction xs as [|x xs IH]; simpl; [constructor|].
  revert IH. generalize (Js.sort (λ a b, key b - key a) xs). clear xs.
  intros ys Hys. induction Hys as [|y ys Hys IH Hhd]; simpl.
  - repeat constructor.
  - destruct (0 <? key y - key x) eqn:Hcmp.
    + apply Z.ltb_lt in Hcmp. constructor; [exact IH|].
      destruct Hhd as [|z zs Hyz]; simpl.
      * constructor. lia.
      * destruct (0 <? key z - key x); constructor; [exact Hyz|lia].
    + apply Z.ltb_ge in Hcmp. constructor.
      * constructor; assumption.
      * constructor. lia.
Qed.

End SortByKey.

(** ** Latest execution of a test case *)

Lemma getLatestExecution_nil (tcId : string) :
  TestManagementPage.getLatestExecution [] tcId = None.
Proof. reflexivity. Qed.

Lemma getLatestExecution_cons (x : TestExecution.t)
    (executions : list TestExecution.t) (tcId : string) :
  TestManagementPage.getLatestExecution (x :: executions) tcId
  = if decide (TestExecution.test_case_id x = tcId)
    then Some match TestManagementPage.getLatestExecution executions tcId with
              | Some y =>
                  if 0 <? TestExecution.execution_date y
                          - TestExecution.execution_date x
                  then y else x
              | None => x
              end
    else TestManagementPage.getLatestExecution executions tcId.
Proof.
  unfold TestManagementPage.getLatestExecution. rewrite filter_cons.
  destruct (decide (TestExecution.test_case_id x = tcId)); [|reflexivity].
  simpl. apply head_insert_sorted.
Qed.

(** The selected execution is one of the executions of the test case. *)
Lemma getLatestExecution_elem (executions : list TestExecution.t)
    (tcId : string) (e : TestExecution.t) :
  TestManagementPage.getLatestExecution executions tcId = Some e →
  e ∈ executions ∧ TestExecution.test_case_id e = tcId.
Proof.
  revert e. induction executions as [|x rest IH]; intros e.
  - rewrite getLatestExecution_nil. discriminate.
  - rewrite getLatestExecution_cons.
    destruct (decide (TestExecution.test_case_id x = tcId)) as [Hx|Hx].
    + destruct (TestManagementPage.getLatestExecution rest tcId) as [y|].
      * destruct (0 <? _); intros [= <-].
        -- destruct (IH y eq_refl) as [Hy Htc]. split; [right|]; assumption.
        -- split; [left|assumption].
      * intros [= <-]. split; [left|assumption].
    + intros He. destruct (IH e He) as [Hin Htc]. split; [right|]; assumption.
Qed.

(** X10: Conversely, an execution that is strictly newer than the executions
    of the test case before it and at least as new as those after it is
    the one selected. *)
Lemma getLatestExecution_complete (before after : list TestExecution.t)
    (tcId : string) (e : TestExecution.t) :
  TestExecution.test_case_id e = tcId →
  (∀ e', e' ∈ before → TestExecution.test_case_id e' = tcId →
     TestExecution.execution_date e' < TestExecution.execution_date e) →
  (∀ e', e' ∈ after → TestExecution.test_case_id e' = tcId →
     TestExecution.execution_date e' ≤ TestExecution.execution_date e) →
  TestManagementPage.getLatestExecution (before ++ e :: after) tcId = Some e.
Proof.
  intros He Hbefore Hafter.
  induction before as [|x before IH]; simpl; rewrite getLatestExecution_cons.
  - rewrite decide_True by exact He.
    destruct (TestManagementPage.getLatestExecution after tcId) as [y|] eqn:Hy;
      [|reflexivity].
    apply getLatestExecution_elem in Hy as [Hin Htc].
    specialize (Hafter y Hin Htc).
    replace (0 <? TestExecution.execution_date y
                  - TestExecution.execution_date e) with false
      by (symmetry; apply Z.ltb_ge; lia).
    reflexivity.
  - rewrite IH by (intros e' He'; apply Hbefore; right; exact He').
    destruct (decide (TestExecution.test_case_id x = tcId)) as [Hx|Hx];
      [|reflexivity].
    assert (Hlt := Hbefore x ltac:(left) Hx).
    replace (0 <? TestExecution.execution_date e
                  - TestExecution.execution_date x) with true
      by (symmetry; apply Z.ltb_lt; lia).
    reflexivity.
Qed.

(** C2, as stated, fails: of two executions of a test case recorded at
    the same instant, the one of cycle 1 is selected when it comes first
    in the loaded list, although the other one has cycle 2. *)
Lemma latest_execution_ignores_cycle :
  TestManagementPage.getLatestExecution
    [Sample.first_run; Sample.second_run] "TC-001"
  = Some Sample.first_run
  ∧ ¬ TestManagementPage.latest_by_date_then_cycle
        [Sample.first_run; Sample.second_run] "TC-001" Sample.first_run.
Proof.
  split; [vm_compute; reflexivity|].
  intros (_ & _ & Hmax).
  destruct (Hmax Sample.second_run) as [Hlt|[_ Hcycle]].
  - rewrite !elem_of_cons. auto.
  - reflexivity.
  - simpl in Hlt. lia.
  - simpl in Hcycle. lia.
Qed.

(** C2, amended: the execution selected for a test case is one of its
    executions with the greatest execution timestamp, and among those
    the first in the loaded list; none is selected exactly when the test
    case has no execution. *)
Theorem getLatestExecution_newest_then_first
    (executions : list TestExecution.t) (tcId : string) :
  match TestManagementPage.getLatestExecution executions tcId with
  | Some e =>
      TestManagementPage.latest_by_date_then_position executions tcId e
  | None =>
      ∀ e, e ∈ executions → TestExecution.test_case_id e ≠ tcId
  end.
Proof.
  induction executions as [|x rest IH].
  - rewrite getLatestExecution_nil. intros e He.
    apply elem_of_nil in He. contradiction.
  - rewrite getLatestExecution_cons.
    destruct (decide (TestExecution.test_case_id x = tcId)) as [Hx|Hx].
    + destruct (TestManagementPage.getLatestExecution rest tcId) as [y|].
      * destruct IH as (before & after & -> & Hy & Hbefore & Hafter).
        destruct (0 <? TestExecution.execution_date y
                       - TestExecution.execution_date x) eqn:Hcmp.
        -- apply Z.ltb_lt in Hcmp.
           exists (x :: before), after. repeat split; try assumption.
           intros e' He' Htc. apply elem_of_cons in He' as [->|He'].
           ++ lia.
           ++ apply Hbefore; assumption.
        -- apply Z.ltb_ge in Hcmp.
           exists [], (before ++ y :: after). repeat split; try assumption.
           ++ intros e' He'. apply elem_of_nil in He'. contradiction.
           ++ intros e' He' Htc.
              apply elem_of_app in He' as [He'|He'].
              ** specialize (Hbefore e' He' Htc). lia.
              ** apply elem_of_cons in He' as [->|He']; [lia|].
                 specialize (Hafter e' He' Htc). lia.
      * exists [], rest. repeat split; try assumption.
        -- intros e' He'. apply elem_of_nil in He'. contradiction.
        -- intros e' He' Htc. exfalso. exact (IH e' He' Htc).
    + destruct (TestManagementPage.getLatestExecution rest tcId) as [y|].
      * destruct IH as (before & after & -> & Hy & Hbefore & Hafter).
        exists (x :: before), after. repeat split; try assumption.
        intros e' He' Htc. apply elem_of_cons in He' as [->|He'].
        -- contradiction.
        -- apply Hbefore; assumption.
      * intros e He. apply elem_of_cons in He as [->|He].
        -- exact Hx.
        -- apply IH, He.
Qed.

(** The status shown for a test case: a later re-run replaces the result
    of the earlier run. *)
Example statusTag_after_rerun :
  TestManagementPage.statusTag
    [ Sample.execution "EXEC-001" "TC-001" 1 1709542800000 Fail;
      Sample.execution "EXEC-002" "TC-001" 2 1709629200000 Pass ]
    (Sample.testCase "TC-001")
  = Pass.
Proof. vm_compute. reflexivity. Qed.

(** * Further properties of the pages *)

(** ** Counting *)

Section Counting.
Context {A : Type} (P : A → Prop) `{!∀ x, Decision (P x)}.

(** An array splits into the elements that pass a test and those that
    do not. *)
Lemma length_filter_split (xs : list A) :
  Js.length (filter P xs) + Js.length (filter (λ x, ¬ P x) xs) = Js.length xs.
Proof.
  unfold Js.length. induction xs as [|x xs IH]; [reflexivity|].
  rewrite !filter_cons.
  destruct (decide (P x)), (decide (¬ P x)); simpl length; try lia;
    contradiction.
Qed.

Lemma length_filter_le (xs : list A) : Js.length (filter P xs) ≤ Js.length xs.
Proof.
  unfold Js.length. apply inj_le, length_filter.
Qed.

End Counting.

Lemma Set_size_le (xs : list string) : 0 ≤ Js.Set_size xs ≤ Js.length xs.
Proof.
  rewrite Set_size_distinct. unfold Js.length. split; [lia|].
  apply inj_le. induction xs as [|x xs IH]; simpl; [lia|].
  destruct (decide_rel elem_of x xs); simpl; lia.
Qed.

Lemma Set_size_zero (xs : list string) : Js.Set_size xs = 0 ↔ xs = [].
Proof.
  split; [|intros ->; reflexivity].
  rewrite Set_size_distinct. destruct xs as [|x xs]; [reflexivity|].
  intros Hlen. exfalso.
  assert (Hin : x ∈ remove_dups (x :: xs))
    by (apply elem_of_remove_dups; left).
  destruct (remove_dups (x :: xs)); [|simpl in Hlen; lia].
  apply elem_of_nil in Hin. exact Hin.
Qed.

(** ** Traceability matrix: statistics and cells *)

(** X1: Every row of the matrix is counted under exactly one of the four
    chain statuses; the number of requirements is at most the number of
    rows and is zero only for the empty matrix. *)
Theorem stats_partition_the_rows (matrix : list TraceabilityRow.t) :
  let s := TraceabilityPage.stats matrix in
  TraceabilityPage.complete s + TraceabilityPage.partial s
  + TraceabilityPage.notStarted s + TraceabilityPage.failed s
  = Js.length matrix
  ∧ 0 ≤ TraceabilityPage.total s ≤ Js.length matrix
  ∧ (TraceabilityPage.total s = 0 ↔ matrix = []).
Proof.
  unfold TraceabilityPage.stats; simpl. repeat split.
  - unfold Js.length. induction matrix as [|r rest IH]; [reflexivity|].
    rewrite !filter_cons.
    destruct (TraceabilityRow.status r) eqn:Hst; simpl in *;
      repeat (destruct (decide _); try discriminate; try contradiction);
      simpl length; lia.
  - apply Set_size_le.
  - pose proof (Set_size_le (TraceabilityRow.urs_id <$> matrix)) as [_ H].
    unfold Js.length in *. rewrite length_fmap in H. exact H.
  - intros H. apply Set_size_zero in H. apply fmap_nil_inv in H. exact H.
  - intros ->. reflexivity.
Qed.

(** X2: In a row whose chain has no hole (a test case only under an FS, an
    execution result only under a test case) at most one Missing tag is
    shown, at the first link that is absent: FS, else TC, else Exec; the
    URS and DS columns never show one. *)
Theorem one_gap_marker_per_row (row : TraceabilityRow.t) :
  (Js.truthy (TraceabilityRow.tc_id row) = true →
   Js.truthy (TraceabilityRow.fs_id row) = true) →
  (Js.truthy (TraceabilityRow.exec_result row) = true →
   Js.truthy (TraceabilityRow.tc_id row) = true) →
  TraceabilityPage.missingLabels (TraceabilityPage.chainCells row)
  = if negb (Js.truthy (TraceabilityRow.fs_id row)) then ["FS"]
    else if negb (Js.truthy (TraceabilityRow.tc_id row)) then ["TC"]
    else if negb (Js.truthy (TraceabilityRow.exec_result row)) then ["Exec"]
    else [].
Proof.
  unfold TraceabilityPage.chainCells, TraceabilityPage.missingLabels,
    TraceabilityPage.ursIdColumn, TraceabilityPage.fsIdColumn,
    TraceabilityPage.dsColumn, TraceabilityPage.tcIdColumn,
    TraceabilityPage.execResultColumn, TraceabilityPage.renderClickableId,
    TraceabilityPage.renderMissingTag.
  destruct (Js.truthy (Some (TraceabilityRow.urs_id row)));
    destruct (Js.truthy (TraceabilityRow.fs_id row));
    destruct (Js.truthy (TraceabilityRow.ds_id row));
    destruct (Js.truthy (TraceabilityRow.tc_id row));
    destruct (Js.truthy (TraceabilityRow.exec_result row));
    simpl; intros Htc Hexec; try reflexivity;
    try (specialize (Htc eq_refl); discriminate Htc);
    specialize (Hexec eq_refl); discriminate Hexec.
Qed.

Lemma one_gap_marker_per_row_witness :
  TraceabilityPage.missingLabels
    (TraceabilityPage.chainCells
       (Sample.row "URS-001" "TC-001" None Partial))
  = ["Exec"].
Proof.
  apply (one_gap_marker_per_row (Sample.row "URS-001" "TC-001" None Partial));
    reflexivity.
Defined.

Lemma truthy_Some (o : option string) :
  Js.truthy o = true → ∃ s, o = Some s ∧ s ≠ "".
Proof.
  destruct o as [s|]; simpl; [|discriminate].
  intros H. apply bool_decide_eq_true in H. eauto.
Qed.

(** [renderClickableId] on a truthy id is a link for that id which reads
    the id. *)
Lemma renderClickableId_truthy
    (o : option string) (kind : TraceabilityPage.DrawerKind) :
  Js.truthy o = true →
  ∃ s, o = Some s ∧ s ≠ ""
       ∧ TraceabilityPage.renderClickableId o kind None
         = TraceabilityPage.IdLink kind s s.
Proof.
  intros Ht. unfold TraceabilityPage.renderClickableId. rewrite Ht.
  apply truthy_Some in Ht as (s & -> & Hne). eauto.
Qed.

(** The link of the Deviation column is the one that the column shows:
    it is there exactly when the cell is a deviation link, for the same
    id. *)
Lemma deviationIdLink_of_column (row : TraceabilityRow.t) :
  TraceabilityPage.deviationIdLink row
  = match TraceabilityPage.deviationColumn row with
    | TraceabilityPage.DeviationLink id _ _ =>
        Some (TraceabilityPage.IdLink TraceabilityPage.Drawer_DEV id id)
    | _ => None
    end.
Proof.
  unfold TraceabilityPage.deviationIdLink, TraceabilityPage.deviationColumn,
    TraceabilityPage.renderDeviation.
  destruct (Js.truthy (TraceabilityRow.deviation_id row)) eqn:Ht.
  - apply (renderClickableId_truthy _ TraceabilityPage.Drawer_DEV) in Ht
      as (s & -> & _ & ->).
    reflexivity.
  - destruct (bool_decide _); reflexivity.
Qed.

(** X3: Every cell of a matrix row that opens the drawer, in the id
    columns, the Result column or the Deviation column, opens it for a
    non-empty id taken from that same row, in the field of the kind it
    opens: URS, FS, DS, TC, EXEC or DEV.  An id link reads that id. *)
Theorem id_links_open_the_ids_of_the_row
    (row : TraceabilityRow.t) (c : TraceabilityPage.Cell)
    (kind : TraceabilityPage.DrawerKind) (id : string) :
  c ∈ TraceabilityPage.linkCells row →
  TraceabilityPage.onClick c = Some (kind, id) →
  id ≠ ""
  ∧ match c with
    | TraceabilityPage.IdLink _ _ text => text = id
    | _ => True
    end
  ∧ match kind with
    | TraceabilityPage.Drawer_URS => TraceabilityRow.urs_id row = id
    | TraceabilityPage.Drawer_FS => TraceabilityRow.fs_id row = Some id
    | TraceabilityPage.Drawer_DS => TraceabilityRow.ds_id row = Some id
    | TraceabilityPage.Drawer_TC => TraceabilityRow.tc_id row = Some id
    | TraceabilityPage.Drawer_EXEC => TraceabilityRow.exec_id row = Some id
    | TraceabilityPage.Drawer_DEV =>
        TraceabilityRow.deviation_id row = Some id
    end.
Proof.
  unfold TraceabilityPage.linkCells, TraceabilityPage.chainCells,
    TraceabilityPage.ursIdColumn, TraceabilityPage.fsIdColumn,
    TraceabilityPage.dsColumn, TraceabilityPage.tcIdColumn,
    TraceabilityPage.execResultColumn, TraceabilityPage.deviationIdLink,
    TraceabilityPage.renderMissingTag.
  rewrite elem_of_app, !elem_of_cons, elem_of_nil.
  intros [[H|[H|[H|[H|[H|[]]]]]]|H]; revert H.
  - destruct (Js.truthy (Some (TraceabilityRow.urs_id row))) eqn:Ht.
    + apply (renderClickableId_truthy _ TraceabilityPage.Drawer_URS) in Ht
        as (s & [= Hs] & Hne & ->).
      intros -> [= <- <-]. auto.
    + unfold TraceabilityPage.renderClickableId. rewrite Ht.
      intros ->. discriminate.
  - destruct (Js.truthy (TraceabilityRow.fs_id row)) eqn:Ht.
    + apply (renderClickableId_truthy _ TraceabilityPage.Drawer_FS) in Ht
        as (s & Hs & Hne & ->).
      intros -> [= <- <-]. auto.
    + intros ->. discriminate.
  - destruct (Js.truthy (TraceabilityRow.ds_id row)) eqn:Ht.
    + apply (renderClickableId_truthy _ TraceabilityPage.Drawer_DS) in Ht
        as (s & Hs & Hne & ->).
      intros -> [= <- <-]. auto.
    + destruct (Js.truthy (TraceabilityRow.fs_id row)); intros ->;
        discriminate.
  - destruct (Js.truthy (TraceabilityRow.tc_id row)) eqn:Ht.
    + apply (renderClickableId_truthy _ TraceabilityPage.Drawer_TC) in Ht
        as (s & Hs & Hne & ->).
      intros -> [= <- <-]. auto.
    + destruct (Js.truthy (TraceabilityRow.fs_id row)); intros ->;
        discriminate.
  - cbv zeta. destruct (negb _ && _); [intros ->; discriminate|].
    destruct (negb _); [intros ->; discriminate|].
    destruct (Js.truthy (TraceabilityRow.exec_id row)) eqn:Ht;
      [|intros ->; discriminate].
    apply truthy_Some in Ht as (s & Hs & Hne). rewrite Hs.
    intros -> [= <- <-]. auto.
  - destruct (Js.truthy (TraceabilityRow.deviation_id row)) eqn:Ht.
    + apply (renderClickableId_truthy _ TraceabilityPage.Drawer_DEV) in Ht
        as (s & Hs & Hne & ->).
      simpl. rewrite elem_of_cons, elem_of_nil.
      intros [->|[]] [= <- <-]. auto.
    + simpl. rewrite elem_of_nil. intros [].
Qed.

Lemma id_links_open_the_ids_of_the_row_witness :
  "DEV-001" ≠ "" ∧ "DEV-001" = "DEV-001"
  ∧ TraceabilityRow.deviation_id Sample.row_with_deviation = Some "DEV-001".
Proof.
  apply (id_links_open_the_ids_of_the_row
           Sample.row_with_deviation
           (TraceabilityPage.IdLink
              TraceabilityPage.Drawer_DEV "DEV-001" "DEV-001")
           TraceabilityPage.Drawer_DEV "DEV-001").
  - vm_compute. do 5 right. left.
  - reflexivity.
Defined.

(** ** Traceability matrix: detail drawer *)

Lemma find_Some {A : Type} (P : A → Prop) `{!∀ x, Decision (P x)}
    (xs : list A) (x : A) :
  Js.find P xs = Some x → x ∈ xs ∧ P x.
Proof.
  unfold Js.find. intros Hhead. apply head_Some_elem_of in Hhead.
  apply list_elem_of_filter in Hhead. tauto.
Qed.

Lemma find_None {A : Type} (P : A → Prop) `{!∀ x, Decision (P x)}
    (xs : list A) :
  Js.find P xs = None ↔ ∀ x, x ∈ xs → ¬ P x.
Proof.
  unfold Js.find. split.
  - intros Hhead x Hx HP. apply head_None in Hhead.
    exact (filter_nil_not_elem_of P xs x Hhead HP Hx).
  - intros Hnone. induction xs as [|y ys IH]; [reflexivity|].
    rewrite filter_cons_False by (apply Hnone; left).
    apply IH. intros x Hx. apply Hnone. right. exact Hx.
Qed.

(** A record that [fetch] returns for FS, TC, EXEC or DEV has the
    requested id and the interface of the requested kind. *)
Lemma fetch_record (server : TraceabilityPage.Server)
    (kind : TraceabilityPage.DrawerKind) (id : string)
    (record : TraceabilityPage.DrawerData) :
  TraceabilityPage.fetch server kind id = Some (Some record) →
  match kind, record with
  | TraceabilityPage.Drawer_URS, TraceabilityPage.UrsData urs =>
      TraceabilityPage.ursById server id = Some urs
  | TraceabilityPage.Drawer_FS, TraceabilityPage.FsData _
  | TraceabilityPage.Drawer_TC, TraceabilityPage.TcData _
  | TraceabilityPage.Drawer_EXEC, TraceabilityPage.ExecData _
  | TraceabilityPage.Drawer_DEV, TraceabilityPage.DevData _ =>
      TraceabilityPage.data_id record = id
  | _, _ => False
  end.
Proof.
  destruct kind; simpl.
  - destruct (TraceabilityPage.ursById server id); simpl; [|discriminate].
    intros [= <-]. reflexivity.
  - destruct (TraceabilityPage.fsByProject server) as [l|]; simpl;
      [|discriminate].
    destruct (Js.find _ l) eqn:Hf; simpl; [|discriminate].
    intros [= <-]. apply find_Some in Hf as [_ Hid]. exact Hid.
  - discriminate.
  - destruct (TraceabilityPage.tcByProject server) as [l|]; simpl;
      [|discriminate].
    destruct (Js.find _ l) eqn:Hf; simpl; [|discriminate].
    intros [= <-]. apply find_Some in Hf as [_ Hid]. exact Hid.
  - destruct (TraceabilityPage.execByProject server) as [l|]; simpl;
      [|discriminate].
    destruct (Js.find _ l) eqn:Hf; simpl; [|discriminate].
    intros [= <-]. apply find_Some in Hf as [_ Hid]. exact Hid.
  - destruct (TraceabilityPage.devByProject server) as [l|]; simpl;
      [|discriminate].
    destruct (Js.find _ l) eqn:Hf; simpl; [|discriminate].
    intros [= <-]. apply find_Some in Hf as [_ Hid]. exact Hid.
Qed.

(** X4: A click on a DS id opens a drawer titled Design Specification that
    stays empty, whatever the server answers: no request is made for a
    DS and no renderer exists for it. *)
Theorem DS_drawer_is_empty (server : TraceabilityPage.Server) (id : string)
    (st : TraceabilityPage.DrawerState) :
  id ≠ "" →
  let st' :=
    TraceabilityPage.openDrawer server TraceabilityPage.Drawer_DS id st in
  TraceabilityPage.drawerOpen st' = true
  ∧ TraceabilityPage.drawerTitle st' = Some "Design Specification"
  ∧ TraceabilityPage.id st' = Some id
  ∧ TraceabilityPage.data st' = None
  ∧ TraceabilityPage.renderDrawerContent st'
    = TraceabilityPage.NoDrawerContent.
Proof.
  intros Hid. unfold TraceabilityPage.openDrawer,
    TraceabilityPage.openDrawer_start, TraceabilityPage.openDrawer_finish.
  rewrite !decide_False by exact Hid. simpl. repeat split.
Qed.

Lemma DS_drawer_is_empty_witness :
  TraceabilityPage.renderDrawerContent
    (TraceabilityPage.openDrawer Sample.server TraceabilityPage.Drawer_DS
       "DS-001" Sample.closedDrawer)
  = TraceabilityPage.NoDrawerContent.
Proof.
  apply (DS_drawer_is_empty Sample.server "DS-001" Sample.closedDrawer).
  discriminate.
Defined.

(** X5: When [openDrawer] has run to its end for a non-empty id, the drawer
    is open on that kind and id and no longer loading; a record it shows
    was fetched for that kind, and for FS, TC, EXEC and DEV it has the
    requested id; an id that the list does not contain leaves the drawer
    open and empty. *)
Theorem openDrawer_shows_the_requested_record
    (server : TraceabilityPage.Server) (kind : TraceabilityPage.DrawerKind)
    (id : string) (st : TraceabilityPage.DrawerState) :
  id ≠ "" →
  let st' := TraceabilityPage.openDrawer server kind id st in
  TraceabilityPage.type st' = Some kind
  ∧ TraceabilityPage.id st' = Some id
  ∧ TraceabilityPage.loading st' = false
  ∧ match TraceabilityPage.renderDrawerContent st' with
    | TraceabilityPage.DetailContent renderer record =>
        renderer = kind
        ∧ TraceabilityPage.fetch server kind id = Some (Some record)
        ∧ (kind ≠ TraceabilityPage.Drawer_URS →
           TraceabilityPage.data_id record = id)
    | TraceabilityPage.NoDrawerContent =>
        TraceabilityPage.fetch server kind id ≠ None →
        TraceabilityPage.fetch server kind id = Some None
    | TraceabilityPage.LoadingContent => False
    end.
Proof.
  intros Hid. unfold TraceabilityPage.openDrawer,
    TraceabilityPage.openDrawer_start, TraceabilityPage.openDrawer_finish.
  rewrite !decide_False by exact Hid.
  destruct (TraceabilityPage.fetch server kind id) as [[record|]|] eqn:Hf;
    unfold TraceabilityPage.renderDrawerContent; simpl;
    (split; [reflexivity|split; [reflexivity|split; [reflexivity|]]]).
  - pose proof (fetch_record server kind id record Hf) as Hrec.
    destruct kind, record; simpl in *; try contradiction;
      repeat split; intros; congruence.
  - destruct kind; intros; reflexivity.
  - destruct kind; intros; congruence.
Qed.

Lemma openDrawer_shows_the_requested_record_witness :
  TraceabilityPage.type
    (TraceabilityPage.openDrawer Sample.server TraceabilityPage.Drawer_EXEC
       "EXEC-002" Sample.closedDrawer)
  = Some TraceabilityPage.Drawer_EXEC.
Proof.
  apply (openDrawer_shows_the_requested_record Sample.server
           TraceabilityPage.Drawer_EXEC "EXEC-002" Sample.closedDrawer).
  discriminate.
Defined.

(** X6: The answer to a request is stored in whatever drawer is open when it
    arrives.  If another item was opened meanwhile, the record of the
    earlier request is stored under the kind and id of the later one and
    the drawer stops loading; the renderer of the later kind is applied
    to it, except that a DS drawer, which has no renderer, shows nothing.
    If the drawer was closed meanwhile, it stays closed and keeps the
    record. *)
Theorem late_answer_lands_in_current_drawer
    (server : TraceabilityPage.Server)
    (kind1 kind2 : TraceabilityPage.DrawerKind) (id1 id2 : string)
    (record : TraceabilityPage.DrawerData)
    (st : TraceabilityPage.DrawerState) :
  id2 ≠ "" →
  TraceabilityPage.fetch server kind1 id1 = Some (Some record) →
  let shown :=
    TraceabilityPage.openDrawer_finish server kind1 id1
      (TraceabilityPage.openDrawer_start kind2 id2
         (TraceabilityPage.openDrawer_start kind1 id1 st)) in
  let closed :=
    TraceabilityPage.openDrawer_finish server kind1 id1
      (TraceabilityPage.closeDrawer
         (TraceabilityPage.openDrawer_start kind1 id1 st)) in
  TraceabilityPage.renderDrawerContent shown
  = (if decide (kind2 = TraceabilityPage.Drawer_DS)
     then TraceabilityPage.NoDrawerContent
     else TraceabilityPage.DetailContent kind2 record)
  ∧ TraceabilityPage.type shown = Some kind2
  ∧ TraceabilityPage.id shown = Some id2
  ∧ TraceabilityPage.data shown = Some record
  ∧ TraceabilityPage.loading shown = false
  ∧ TraceabilityPage.drawerOpen closed = false
  ∧ TraceabilityPage.data closed = Some record.
Proof.
  intros Hid Hf.
  unfold TraceabilityPage.openDrawer_finish. rewrite Hf.
  assert (Hstart : ∀ prev,
    TraceabilityPage.openDrawer_start kind2 id2 prev
    = {| TraceabilityPage.type := Some kind2;
         TraceabilityPage.id := Some id2;
         TraceabilityPage.data := None;
         TraceabilityPage.loading := true |}).
  { intros prev. unfold TraceabilityPage.openDrawer_start.
    rewrite decide_False by exact Hid. reflexivity. }
  rewrite Hstart. unfold TraceabilityPage.renderDrawerContent. simpl.
  split; [destruct kind2; reflexivity|]. repeat split.
Qed.

Lemma late_answer_lands_in_current_drawer_witness :
  TraceabilityPage.renderDrawerContent
    (TraceabilityPage.openDrawer_finish Sample.server
       TraceabilityPage.Drawer_FS "FS-001"
       (TraceabilityPage.openDrawer_start TraceabilityPage.Drawer_URS
          "URS-001"
          (TraceabilityPage.openDrawer_start TraceabilityPage.Drawer_FS
             "FS-001" Sample.closedDrawer)))
  = TraceabilityPage.DetailContent TraceabilityPage.Drawer_URS
      (TraceabilityPage.FsData (Sample.fs "FS-001" FS_Approved)).
Proof.
  apply (late_answer_lands_in_current_drawer Sample.server
           TraceabilityPage.Drawer_FS TraceabilityPage.Drawer_URS
           "FS-001" "URS-001"
           (TraceabilityPage.FsData (Sample.fs "FS-001" FS_Approved))
           Sample.closedDrawer);
    [discriminate|reflexivity].
Defined.

(** The answer for FS-001 arriving in a drawer opened on DS-001 since:
    nothing is rendered. *)
Lemma late_answer_in_DS_drawer_shows_nothing :
  TraceabilityPage.renderDrawerContent
    (TraceabilityPage.openDrawer_finish Sample.server
       TraceabilityPage.Drawer_FS "FS-001"
       (TraceabilityPage.openDrawer_start TraceabilityPage.Drawer_DS
          "DS-001"
          (TraceabilityPage.openDrawer_start TraceabilityPage.Drawer_FS
             "FS-001" Sample.closedDrawer)))
  = TraceabilityPage.NoDrawerContent.
Proof. reflexivity. Qed.

(** ** Test management: statistics *)

(** X7: The executions counted as passed, failed and blocked are together
    the executions whose result is not Not Executed, the denominator of
    the pass rate before [Math.max]; so the number of passed executions
    never exceeds that denominator. *)
Theorem result_counts_partition
    (testCases : list TestCase.t) (executions : list TestExecution.t) :
  let s := TestManagementPage.stats testCases executions in
  let executed :=
    Js.length
      (filter (λ e, TestExecution.result e ≠ NotExecuted) executions) in
  TestManagementPage.passed s + TestManagementPage.failed s
  + TestManagementPage.blocked s = executed
  ∧ executed ≤ Js.length executions
  ∧ 0 ≤ TestManagementPage.passed s ≤ Z.max executed 1.
Proof.
  unfold TestManagementPage.stats; simpl.
  assert (Hsum :
    Js.length (filter (λ e, TestExecution.result e = Pass) executions)
    + Js.length (filter (λ e, TestExecution.result e = Fail) executions)
    + Js.length (filter (λ e, TestExecution.result e = Blocked) executions)
    = Js.length
        (filter (λ e, TestExecution.result e ≠ NotExecuted) executions)).
  { unfold Js.length. induction executions as [|e rest IH]; [reflexivity|].
    rewrite !filter_cons.
    destruct (TestExecution.result e) eqn:Hr;
      repeat match goal with
             | |- context [decide ?Q] => destruct (decide Q) as [?|?]
             end;
      simpl length; try lia; exfalso; try congruence;
      match goal with H : ¬ (_ ≠ _) |- _ => apply H; discriminate end. }
  split; [exact Hsum|]. split; [apply length_filter_le|].
  assert (0 ≤ Js.length
                (filter (λ e, TestExecution.result e = Pass) executions))
    by (unfold Js.length; lia).
  assert (0 ≤ Js.length
                (filter (λ e, TestExecution.result e = Fail) executions))
    by (unfold Js.length; lia).
  assert (0 ≤ Js.length
                (filter (λ e, TestExecution.result e = Blocked) executions))
    by (unfold Js.length; lia).
  lia.
Qed.

(** X8: When every loaded execution belongs to a loaded test case, Pending
    Execution lies between zero and the number of test cases. *)
Theorem pending_is_not_negative
    (testCases : list TestCase.t) (executions : list TestExecution.t) :
  (∀ e, e ∈ executions →
        ∃ tc, tc ∈ testCases ∧ TestCase.id tc = TestExecution.test_case_id e) →
  0 ≤ TestManagementPage.notExecuted
        (TestManagementPage.stats testCases executions)
    ≤ Js.length testCases.
Proof.
  intros Href. unfold TestManagementPage.stats; simpl.
  pose proof (Set_size_le (TestExecution.test_case_id <$> executions))
    as [Hpos _].
  pose proof (Set_size_le (TestCase.id <$> testCases)) as [_ Hle].
  assert (Hsub :
    Js.Set_size (TestExecution.test_case_id <$> executions)
    ≤ Js.Set_size (TestCase.id <$> testCases)).
  { unfold Js.Set_size. apply inj_le, subseteq_size. intros x.
    rewrite !elem_of_list_to_set, !list_elem_of_fmap.
    intros (e & -> & He). destruct (Href e He) as (tc & Htc & Hid).
    exists tc. auto. }
  unfold Js.length in *. rewrite length_fmap in Hle. lia.
Qed.

Lemma pending_is_not_negative_witness :
  0 ≤ TestManagementPage.notExecuted
        (TestManagementPage.stats
           [Sample.testCase "TC-001"; Sample.testCase "TC-002"]
           [Sample.first_run; Sample.second_run])
    ≤ Js.length [Sample.testCase "TC-001"; Sample.testCase "TC-002"].
Proof.
  apply (pending_is_not_negative
           [Sample.testCase "TC-001"; Sample.testCase "TC-002"]
           [Sample.first_run; Sample.second_run]).
  intros e He. exists (Sample.testCase "TC-001").
  split; [left|].
  rewrite !elem_of_cons, elem_of_nil in He.
  destruct He as [->|[->|[]]]; reflexivity.
Defined.

(** No execution is selected exactly when the test case has none. *)
Lemma getLatestExecution_None (executions : list TestExecution.t)
    (tcId : string) :
  TestManagementPage.getLatestExecution executions tcId = None
  ↔ ∀ e, e ∈ executions → TestExecution.test_case_id e ≠ tcId.
Proof.
  induction executions as [|x rest IH].
  - split; [|reflexivity]. intros _ e He. apply elem_of_nil in He.
    contradiction.
  - rewrite getLatestExecution_cons.
    destruct (decide (TestExecution.test_case_id x = tcId)) as [Hx|Hx].
    + split; [discriminate|]. intros Hnone. exfalso.
      apply (Hnone x); [left|exact Hx].
    + rewrite IH. split.
      * intros Hnone e He. apply elem_of_cons in He as [->|He];
          [exact Hx|apply Hnone, He].
      * intros Hnone e He. apply Hnone. right. exact He.
Qed.

Lemma NoDup_fmap_filter {A B : Type} (f : A → B) (P : A → Prop)
    `{!∀ x, Decision (P x)} (xs : list A) :
  NoDup (f <$> xs) → NoDup (f <$> filter P xs).
Proof.
  induction xs as [|x xs IH]; simpl; [auto|].
  rewrite NoDup_cons. intros [Hx Hnd]. rewrite filter_cons.
  destruct (decide (P x)); [|apply IH, Hnd].
  simpl. apply NoDup_cons. split; [|apply IH, Hnd].
  intros Hin. apply Hx. apply list_elem_of_fmap in Hin as (y & -> & Hy).
  apply list_elem_of_filter in Hy as [_ Hy].
  apply list_elem_of_fmap_2, Hy.
Qed.

(** X9: With distinct test-case ids and every loaded execution belonging to a
    loaded test case, Pending Execution is the number of test cases for
    which no latest execution exists, the rows whose status falls back
    to Not Executed. *)
Theorem pending_counts_test_cases_without_execution
    (testCases : list TestCase.t) (executions : list TestExecution.t) :
  NoDup (TestCase.id <$> testCases) →
  (∀ e, e ∈ executions →
        ∃ tc, tc ∈ testCases ∧ TestCase.id tc = TestExecution.test_case_id e) →
  TestManagementPage.notExecuted
    (TestManagementPage.stats testCases executions)
  = Js.length
      (filter
         (λ tc, TestManagementPage.getLatestExecution executions
                  (TestCase.id tc) = None)
         testCases).
Proof.
  intros Hnd Href. unfold TestManagementPage.stats; simpl.
  set (E := list_to_set (TestExecution.test_case_id <$> executions)
            : gset string).
  set (has := λ tc : TestCase.t, TestCase.id tc ∈ E).
  assert (Hfilter :
    filter (λ tc, TestManagementPage.getLatestExecution executions
                    (TestCase.id tc) = None) testCases
    = filter (λ tc, ¬ has tc) testCases).
  { apply list_filter_iff. intros tc. rewrite getLatestExecution_None.
    unfold has, E. rewrite elem_of_list_to_set, list_elem_of_fmap. split.
    - intros Hnone (e & Hid & He). exact (Hnone e He (eq_sym Hid)).
    - intros Hnot e He Hid. apply Hnot. exists e. auto. }
  rewrite Hfilter, <- (length_filter_split has testCases).
  assert (Hsize :
    Js.Set_size (TestExecution.test_case_id <$> executions)
    = Js.length (filter has testCases)).
  { unfold Js.Set_size, Js.length. f_equal. fold E.
    rewrite <- (length_fmap TestCase.id (filter has testCases)).
    rewrite <- (size_list_to_set (C := gset string)
                  (TestCase.id <$> filter has testCases))
      by (apply NoDup_fmap_filter, Hnd).
    f_equal. apply set_eq. intros x.
    rewrite elem_of_list_to_set, list_elem_of_fmap. split.
    - intros Hx. pose proof Hx as Hx'. unfold E in Hx'.
      rewrite elem_of_list_to_set, list_elem_of_fmap in Hx'.
      destruct Hx' as (e & -> & He).
      destruct (Href e He) as (tc & Htc & Hid).
      exists tc. split; [auto|]. apply list_elem_of_filter.
      split; [|exact Htc]. unfold has. rewrite Hid. exact Hx.
    - intros (tc & -> & Htc). apply list_elem_of_filter in Htc as [Hhas _].
      exact Hhas. }
  rewrite Hsize. lia.
Qed.

Lemma pending_counts_test_cases_without_execution_witness :
  TestManagementPage.notExecuted
    (TestManagementPage.stats
       [Sample.testCase "TC-001"; Sample.testCase "TC-002"]
       [Sample.first_run; Sample.second_run])
  = Js.length
      (filter
         (λ tc, TestManagementPage.getLatestExecution
                  [Sample.first_run; Sample.second_run] (TestCase.id tc)
                = None)
         [Sample.testCase "TC-001"; Sample.testCase "TC-002"]).
Proof.
  apply (pending_counts_test_cases_without_execution
           [Sample.testCase "TC-001"; Sample.testCase "TC-002"]
           [Sample.first_run; Sample.second_run]).
  - simpl. apply NoDup_cons. split.
    + rewrite list_elem_of_singleton. discriminate.
    + apply NoDup_singleton.
  - intros e He. exists (Sample.testCase "TC-001").
    split; [left|].
    rewrite !elem_of_cons, elem_of_nil in He.
    destruct He as [->|[->|[]]]; reflexivity.
Defined.

Lemma getLatestExecution_complete_witness :
  TestManagementPage.getLatestExecution
    ([Sample.earlier_run] ++ Sample.later_run :: []) "TC-001"
  = Some Sample.later_run.
Proof.
  apply (getLatestExecution_complete [Sample.earlier_run] [] "TC-001"
           Sample.later_run).
  - reflexivity.
  - intros e' He' _. apply list_elem_of_singleton in He' as ->.
    simpl. lia.
  - intros e' He'. apply elem_of_nil in He'. contradiction.
Defined.

(** ** Deviations: summary cards *)

Section Cards.
Context (Q : DeviationStatus → Prop) `{!∀ s, Decision (Q s)}.

(** Raising the count of a status adds one to the cards selected by a
    test on the status exactly when the status passes the test. *)
Lemma cardsTotal_increment (status : DeviationStatus)
    (acc : list (DeviationStatus * Z)) :
  DeviationPage.cardsTotal
    (filter (λ card, Q card.1) (DeviationPage.increment status acc))
  = DeviationPage.cardsTotal (filter (λ card, Q card.1) acc)
    + (if decide (Q status) then 1 else 0).
Proof.
  induction acc as [|[key count] rest IH]; simpl.
  - rewrite filter_cons, filter_nil. simpl.
    destruct (decide (Q status)); reflexivity.
  - destruct (decide (key = status)) as [->|Hne].
    + rewrite !filter_cons. simpl.
      destruct (decide (Q status)); simpl; lia.
    + rewrite !filter_cons. simpl.
      destruct (decide (Q key)); simpl; rewrite IH; lia.
Qed.

Lemma cardsTotal_foldl (deviations : list Deviation.t)
    (acc : list (DeviationStatus * Z)) :
  DeviationPage.cardsTotal
    (filter (λ card, Q card.1)
       (foldl (λ acc d, DeviationPage.increment (Deviation.status d) acc)
          acc deviations))
  = DeviationPage.cardsTotal (filter (λ card, Q card.1) acc)
    + Js.length (filter (λ d, Q (Deviation.status d)) deviations).
Proof.
  revert acc. unfold Js.length.
  induction deviations as [|d rest IH]; intros acc; simpl.
  - lia.
  - rewrite IH, cardsTotal_increment, filter_cons.
    destruct (decide (Q (Deviation.status d))); simpl length; lia.
Qed.

End Cards.

Lemma increment_keys (status key : DeviationStatus)
    (acc : list (DeviationStatus * Z)) :
  key ∈ (DeviationPage.increment status acc).*1
  ↔ key = status ∨ key ∈ acc.*1.
Proof.
  induction acc as [|[k c] rest IH]; simpl.
  - rewrite list_elem_of_singleton, elem_of_nil. tauto.
  - destruct (decide (k = status)) as [->|Hne]; simpl.
    + rewrite !elem_of_cons. tauto.
    + rewrite !elem_of_cons, IH. tauto.
Qed.

Lemma increment_NoDup (status : DeviationStatus)
    (acc : list (DeviationStatus * Z)) :
  NoDup acc.*1 → NoDup (DeviationPage.increment status acc).*1.
Proof.
  induction acc as [|[k c] rest IH]; simpl; intros Hnd.
  - apply NoDup_singleton.
  - apply NoDup_cons in Hnd as [Hk Hnd].
    destruct (decide (k = status)) as [->|Hne]; simpl.
    + apply NoDup_cons. auto.
    + apply NoDup_cons. split; [|apply IH, Hnd].
      rewrite increment_keys. intros [->|Hin]; contradiction.
Qed.

Lemma summary_keys (deviations : list Deviation.t)
    (acc : list (DeviationStatus * Z)) (key : DeviationStatus) :
  key ∈ (foldl (λ acc d, DeviationPage.increment (Deviation.status d) acc)
           acc deviations).*1
  ↔ key ∈ acc.*1 ∨ ∃ d, d ∈ deviations ∧ Deviation.status d = key.
Proof.
  revert acc. induction deviations as [|d rest IH]; intros acc; simpl.
  - split; [auto|]. intros [H|(d & Hd & _)]; [exact H|].
    apply elem_of_nil in Hd. contradiction.
  - rewrite IH, increment_keys. split.
    + intros [[->|Hin]|(d' & Hd' & Hst)].
      * right. exists d. split; [left|reflexivity].
      * left. exact Hin.
      * right. exists d'. split; [right; exact Hd'|exact Hst].
    + intros [Hin|(d' & Hd' & Hst)]; [auto|].
      apply elem_of_cons in Hd' as [->|Hd']; [auto|].
      right. exists d'. auto.
Qed.

Lemma summary_NoDup (deviations : list Deviation.t)
    (acc : list (DeviationStatus * Z)) :
  NoDup acc.*1 →
  NoDup (foldl (λ acc d, DeviationPage.increment (Deviation.status d) acc)
           acc deviations).*1.
Proof.
  revert acc. induction deviations as [|d rest IH]; intros acc Hnd; simpl.
  - exact Hnd.
  - apply IH, increment_NoDup, Hnd.
Qed.

Lemma filter_none {A : Type} (P : A → Prop) `{!∀ x, Decision (P x)}
    (xs : list A) :
  (∀ x, x ∈ xs → ¬ P x) → filter P xs = [].
Proof.
  intros Hnone. induction xs as [|y ys IH]; [reflexivity|].
  rewrite filter_cons_False by (apply Hnone; left).
  apply IH. intros x Hx. apply Hnone. right. exact Hx.
Qed.

Lemma filter_all {A : Type} (P : A → Prop) `{!∀ x, Decision (P x)}
    (xs : list A) :
  (∀ x, P x) → filter P xs = xs.
Proof.
  intros Hall. induction xs as [|y ys IH]; [reflexivity|].
  rewrite filter_cons_True by apply Hall. f_equal. exact IH.
Qed.

(** With distinct keys, the cards of one status are the one card. *)
Lemma filter_key_NoDup (cards : list (DeviationStatus * Z))
    (key : DeviationStatus) (count : Z) :
  NoDup cards.*1 → (key, count) ∈ cards →
  filter (λ card, card.1 = key) cards = [(key, count)].
Proof.
  induction cards as [|[k c] rest IH]; simpl; intros Hnd Hin.
  - apply elem_of_nil in Hin. contradiction.
  - apply NoDup_cons in Hnd as [Hk Hnd]. rewrite filter_cons. simpl.
    apply elem_of_cons in Hin as [[= -> ->]|Hin].
    + rewrite decide_True by reflexivity. f_equal.
      apply filter_none. intros [k' c'] Hin' Heq.
      simpl in Heq. subst k'. apply Hk.
      apply list_elem_of_fmap. exists (k, c'). auto.
    + destruct (decide (k = key)) as [->|Hne]; [|apply IH; assumption].
      exfalso. apply Hk. apply list_elem_of_fmap. exists (key, count). auto.
Qed.

(** X11: The summary cards show every status that occurs among the deviations
    exactly once, each with the number of deviations in that status; the
    numbers add up to the number of deviations, and those of the cards
    other than Closed add up to Open Deviations. *)
Theorem summary_cards_count_the_deviations (deviations : list Deviation.t) :
  let cards := DeviationPage.summaryCards deviations in
  NoDup cards.*1
  ∧ (∀ status, status ∈ cards.*1
               ↔ ∃ d, d ∈ deviations ∧ Deviation.status d = status)
  ∧ (∀ status count,
       (status, count) ∈ cards →
       count = Js.length
                 (filter (λ d, Deviation.status d = status) deviations)
       ∧ 0 < count)
  ∧ DeviationPage.cardsTotal cards = Js.length deviations
  ∧ DeviationPage.cardsTotal (filter (λ card, card.1 ≠ Dev_Closed) cards)
    = DeviationPage.openCount deviations.
Proof.
  unfold DeviationPage.summaryCards. simpl.
  assert (Hnd := summary_NoDup deviations [] (NoDup_nil_2)).
  assert (Hkeys : ∀ status,
    status ∈ (foldl (λ acc d,
                 DeviationPage.increment (Deviation.status d) acc)
                [] deviations).*1
    ↔ ∃ d, d ∈ deviations ∧ Deviation.status d = status).
  { intros status. rewrite summary_keys. simpl. rewrite elem_of_nil. tauto. }
  repeat match goal with |- _ ∧ _ => split end.
  - exact Hnd.
  - exact Hkeys.
  - intros status count Hin.
    pose proof (cardsTotal_foldl (λ s, s = status) deviations []) as Hsum.
    cbv beta in Hsum.
    rewrite (filter_key_NoDup _ status count Hnd Hin) in Hsum.
    simpl in Hsum. assert (Hcount :
      count = Js.length
                (filter (λ d, Deviation.status d = status) deviations))
      by lia.
    split; [exact Hcount|].
    assert (Hkey : status ∈ (foldl (λ acc d,
                     DeviationPage.increment (Deviation.status d) acc)
                    [] deviations).*1)
      by (apply list_elem_of_fmap; exists (status, count); auto).
    apply Hkeys in Hkey as (d & Hd & Hst).
    assert (Hd' : d ∈ filter (λ d, Deviation.status d = status) deviations)
      by (apply list_elem_of_filter; auto).
    rewrite Hcount. unfold Js.length.
    destruct (filter (λ d, Deviation.status d = status) deviations);
      [apply elem_of_nil in Hd'; contradiction|simpl; lia].
  - pose proof (cardsTotal_foldl (λ _, True) deviations []) as Hsum.
    rewrite !filter_all in Hsum by auto.
    simpl in Hsum. lia.
  - pose proof (cardsTotal_foldl (λ s, s ≠ Dev_Closed) deviations [])
      as Hsum.
    simpl in Hsum. unfold DeviationPage.openCount. lia.
Qed.

(** X12: The step highlighted in the detail modal is the one titled with the
    status of the deviation, and different statuses highlight different
    steps. *)
Theorem status_step_is_titled_with_the_status (s : DeviationStatus) :
  DeviationPage.stepTitles !! DeviationPage.statusStep s
  = Some (DeviationStatus_string s)
  ∧ ∀ s', DeviationPage.statusStep s = DeviationPage.statusStep s' → s = s'.
Proof.
  split; [destruct s; reflexivity|].
  intros s'. destruct s, s'; simpl; intros H; try reflexivity;
    discriminate H.
Qed.

(** ** System boundary: scope items *)

Section Split.
Context (sep : ascii).

Lemma split_not_nil (s : string) : Js.split sep s ≠ [].
Proof.
  destruct s as [|c rest]; simpl; [discriminate|].
  destruct (decide (c = sep)); [discriminate|].
  destruct (Js.split sep rest); discriminate.
Qed.

(** No piece contains the separator. *)
Lemma split_pieces (s piece : string) :
  piece ∈ Js.split sep s → sep ∉ Js.chars piece.
Proof.
  revert piece. induction s as [|c rest IH]; simpl; intros piece.
  - rewrite list_elem_of_singleton. intros ->. apply not_elem_of_nil.
  - destruct (decide (c = sep)) as [->|Hne].
    + rewrite elem_of_cons. intros [->|Hin]; [apply not_elem_of_nil|].
      apply IH, Hin.
    + destruct (Js.split sep rest) as [|p ps] eqn:Hsplit.
      * rewrite list_elem_of_singleton. intros ->. simpl.
        rewrite not_elem_of_cons. split; [auto|apply not_elem_of_nil].
      * rewrite elem_of_cons. intros [->|Hin].
        -- simpl. rewrite not_elem_of_cons. split; [auto|].
           apply IH. left.
        -- apply IH. right. exact Hin.
Qed.

(** Splitting two texts joined by the separator gives the pieces of the
    first followed by the pieces of the second. *)
Lemma split_app (s1 s2 : string) :
  Js.split sep (s1 +:+ String sep s2) = Js.split sep s1 ++ Js.split sep s2.
Proof.
  induction s1 as [|c rest IH]; simpl.
  - rewrite decide_True by reflexivity. reflexivity.
  - destruct (decide (c = sep)) as [->|Hne].
    + rewrite IH. reflexivity.
    + rewrite IH. pose proof (split_not_nil rest) as Hnil.
      destruct (Js.split sep rest) as [|p ps]; [contradiction|].
      reflexivity.
Qed.

(** A text without the separator is a single piece. *)
Lemma split_single (s : string) :
  sep ∉ Js.chars s → Js.split sep s = [s].
Proof.
  induction s as [|c rest IH]; simpl; [reflexivity|].
  rewrite not_elem_of_cons. intros [Hne Hrest].
  rewrite decide_False by auto. rewrite IH by exact Hrest. reflexivity.
Qed.

End Split.

(** X13: The items sent for a new boundary are never empty and never contain
    a line feed, for both text areas. *)
Theorem scope_items_are_clean_lines
    (values : SystemBoundaryPage.CreateValues) (item : string) :
  item ∈ SystemBoundaryPage.in_scope_items
           (SystemBoundaryPage.handleCreate values)
  ∨ item ∈ SystemBoundaryPage.out_of_scope_items
             (SystemBoundaryPage.handleCreate values) →
  item ≠ "" ∧ Js.LF ∉ Js.chars item.
Proof.
  assert (Hclean : ∀ text,
    item ∈ SystemBoundaryPage.scopeItems text →
    item ≠ "" ∧ Js.LF ∉ Js.chars item).
  { intros [s|]; simpl.
    - rewrite list_elem_of_filter. intros [Hne Hin].
      split; [exact Hne|]. exact (split_pieces Js.LF s item Hin).
    - intros Hin. apply elem_of_nil in Hin. contradiction. }
  simpl. intros [Hin|Hin]; exact (Hclean _ Hin).
Qed.

Lemma scope_items_are_clean_lines_witness :
  "LIMS" ≠ "" ∧ Js.LF ∉ Js.chars "LIMS".
Proof.
  apply (scope_items_are_clean_lines
           {| SystemBoundaryPage.inScope :=
                Some ("LIMS" +:+ String Js.LF (String Js.LF "ELN"));
              SystemBoundaryPage.outScope := None |} "LIMS").
  left. vm_compute. left.
Defined.

Lemma scopeItems_app (s1 s2 : string) :
  SystemBoundaryPage.scopeItems (Some (s1 +:+ String Js.LF s2))
  = SystemBoundaryPage.scopeItems (Some s1)
    ++ SystemBoundaryPage.scopeItems (Some s2).
Proof.
  unfold SystemBoundaryPage.scopeItems.
  rewrite split_app, filter_app. reflexivity.
Qed.

(** X14: Typing a second text below a first one, on a new line, sends the
    items of the first followed by the items of the second; a text area
    left untouched, an empty one and one with only line breaks send no
    item. *)
Theorem scope_items_of_joined_texts (s1 s2 : string) :
  SystemBoundaryPage.scopeItems (Some (s1 +:+ String Js.LF s2))
  = SystemBoundaryPage.scopeItems (Some s1)
    ++ SystemBoundaryPage.scopeItems (Some s2)
  ∧ SystemBoundaryPage.scopeItems None = []
  ∧ SystemBoundaryPage.scopeItems (Some "") = []
  ∧ SystemBoundaryPage.scopeItems (Some (String Js.LF "")) = [].
Proof.
  split; [apply scopeItems_app|]. repeat split.
Qed.

(** X15: Items that are not empty and contain no line feed, typed one per
    line, are sent as they are, in order. *)
Theorem scope_items_round_trip (items : list string) :
  Forall (λ item, item ≠ "" ∧ Js.LF ∉ Js.chars item) items →
  SystemBoundaryPage.scopeItems (Some (Js.join (String Js.LF "") items))
  = items.
Proof.
  assert (Hone : ∀ item,
    item ≠ "" → Js.LF ∉ Js.chars item →
    SystemBoundaryPage.scopeItems (Some item) = [item]).
  { intros item Hne Hlf. unfold SystemBoundaryPage.scopeItems.
    rewrite split_single by exact Hlf.
    rewrite filter_cons_True by exact Hne. reflexivity. }
  induction 1 as [|item rest [Hne Hlf] Hrest IH]; [reflexivity|].
  destruct rest as [|next rest'].
  - simpl. apply Hone; assumption.
  - change (Js.join (String Js.LF "") (item :: next :: rest'))
      with (item +:+ String Js.LF (Js.join (String Js.LF "") (next :: rest'))).
    rewrite scopeItems_app, IH, Hone by assumption. reflexivity.
Qed.

Lemma scope_items_round_trip_witness :
  SystemBoundaryPage.scopeItems
    (Some (Js.join (String Js.LF "") ["LIMS core"; "Audit trail"]))
  = ["LIMS core"; "Audit trail"].
Proof.
  apply (scope_items_round_trip ["LIMS core"; "Audit trail"]).
  repeat constructor; try discriminate; vm_compute;
    intros H; repeat (inversion H as [|? ? ? H']; clear H; rename H' into H).
Defined.

(** ** Functional specifications: parents and approval *)

Lemma NoDup_fmap_inj_on {A B : Type} (f : A → B) (xs : list A) (x y : A) :
  NoDup (f <$> xs) → x ∈ xs → y ∈ xs → f x = f y → x = y.
Proof.
  induction xs as [|z zs IH]; simpl; intros Hnd Hx Hy Heq.
  - apply elem_of_nil in Hx. contradiction.
  - apply NoDup_cons in Hnd as [Hz Hnd].
    apply elem_of_cons in Hx as [->|Hx]; apply elem_of_cons in Hy as [->|Hy].
    + reflexivity.
    + exfalso. apply Hz. rewrite Heq. apply list_elem_of_fmap_2, Hy.
    + exfalso. apply Hz. rewrite <- Heq. apply list_elem_of_fmap_2, Hx.
    + apply IH; assumption.
Qed.

(** X16: With distinct requirement ids, the requirement that the page shows
    for the parent chosen in the New FS form is the Approved requirement
    behind the chosen option. *)
Theorem offered_parent_resolves_to_approved_requirement
    (ursList : list Requirement.t) (o : SelectOption) :
  NoDup (Requirement.id <$> ursList) →
  o ∈ FSPage.ursOptions ursList →
  ∃ u, FSPage.getLinkedURS ursList (value o) = Some u
       ∧ u ∈ ursList
       ∧ Requirement.status u = URS_Approved
       ∧ label o = Requirement.id u +:+ ": " +:+ Requirement.title u.
Proof.
  intros Hnd Ho. unfold FSPage.ursOptions, FSPage.approvedURS in Ho.
  apply elem_of_map_filter in Ho as (u & Hu & Happ & ->). simpl.
  unfold FSPage.getLinkedURS.
  destruct (Js.find (λ u0, Requirement.id u0 = Requirement.id u) ursList)
    as [u'|] eqn:Hfind.
  - apply find_Some in Hfind as [Hu' Hid].
    assert (u' = u) as ->
      by exact (NoDup_fmap_inj_on Requirement.id ursList u' u Hnd Hu' Hu Hid).
    exists u. auto.
  - exfalso. rewrite find_None in Hfind. exact (Hfind u Hu eq_refl).
Qed.

Lemma offered_parent_resolves_to_approved_requirement_witness :
  ∃ u, FSPage.getLinkedURS
         [ Sample.requirement "URS-001" URS_Draft;
           Sample.requirement "URS-002" URS_Approved ]
         "URS-002" = Some u
       ∧ u ∈ [ Sample.requirement "URS-001" URS_Draft;
               Sample.requirement "URS-002" URS_Approved ]
       ∧ Requirement.status u = URS_Approved
       ∧ "URS-002: Electronic signature"
         = Requirement.id u +:+ ": " +:+ Requirement.title u.
Proof.
  apply (offered_parent_resolves_to_approved_requirement
           [ Sample.requirement "URS-001" URS_Draft;
             Sample.requirement "URS-002" URS_Approved ]
           {| value := "URS-002";
              label := "URS-002: Electronic signature" |}).
  - simpl. apply NoDup_cons. split.
    + rewrite list_elem_of_singleton. discriminate.
    + apply NoDup_singleton.
  - vm_compute. left.
Defined.

(** X17: After an accepted approval of the FS shown in the drawer of the URS
    page, the drawer shows the entry of that id from the list with
    status Approved, and the approve control is hidden for every user;
    an approval of another FS leaves the drawer as it is, and so does an
    id that the list does not contain. *)
Theorem approved_FS_loses_its_approve_control
    (fsList : list FunctionalSpecification.t)
    (selected fs : FunctionalSpecification.t) (user : option User) :
  (FunctionalSpecification.id selected ≠ FunctionalSpecification.id fs →
   URSPage.handleApproveFS fsList (Some selected) fs = Some selected)
  ∧ ((∀ f, f ∈ fsList →
           FunctionalSpecification.id f ≠ FunctionalSpecification.id fs) →
     URSPage.handleApproveFS fsList (Some selected) fs = Some selected)
  ∧ (FunctionalSpecification.id selected = FunctionalSpecification.id fs →
     (∃ f, f ∈ fsList
           ∧ FunctionalSpecification.id f = FunctionalSpecification.id fs) →
     ∃ shown,
       URSPage.handleApproveFS fsList (Some selected) fs = Some shown
       ∧ FunctionalSpecification.id shown = FunctionalSpecification.id fs
       ∧ FunctionalSpecification.status shown = FS_Approved
       ∧ URSPage.approveFSVisible shown user = false).
Proof.
  unfold URSPage.handleApproveFS. simpl. repeat split.
  - intros Hne. rewrite decide_False by congruence. reflexivity.
  - intros Hnone.
    rewrite (proj2 (find_None
                      (λ f, FunctionalSpecification.id f
                            = FunctionalSpecification.id fs) fsList) Hnone).
    destruct (decide _); reflexivity.
  - intros Hid (f & Hf & Hfid). rewrite decide_True by congruence.
    destruct (Js.find _ fsList) as [updated|] eqn:Hfind.
    + apply find_Some in Hfind as [_ Hupd].
      exists (URSPage.withStatus updated FS_Approved).
      split; [reflexivity|]. split; [exact Hupd|]. split; [reflexivity|].
      unfold URSPage.approveFSVisible. simpl. reflexivity.
    + exfalso. rewrite find_None in Hfind. exact (Hfind f Hf Hfid).
Qed.

(** X18: A new FS is sent under the requirement that is selected when the
    form is submitted.  Generate FS is offered only for an Approved
    requirement, so with the selection unchanged the parent is Approved;
    if another requirement is selected before the suggestion arrives,
    the FS is sent under that one, whatever its status. *)
Theorem FS_parent_is_the_selection_at_submit
    (st : CreateFSModal.State) (other : Requirement.t)
    (values : CreateFSModal.FormValues) :
  is_Some (DeviationPage.required (CreateFSModal.title values)) →
  is_Some (DeviationPage.required (CreateFSModal.description values)) →
  (CreateFSModal.generateFSVisible st = true →
   ∃ urs payload,
     CreateFSModal.selectedURS st = Some urs
     ∧ Requirement.status urs = URS_Approved
     ∧ CreateFSModal.handleCreateFS
         (CreateFSModal.handleAISuggestFS_done st) values = Some payload
     ∧ FunctionalSpecificationCreate.urs_id payload = Requirement.id urs)
  ∧ (∃ payload,
       CreateFSModal.handleCreateFS
         (CreateFSModal.handleAISuggestFS_done
            (CreateFSModal.selectRow other st)) values = Some payload
       ∧ FunctionalSpecificationCreate.urs_id payload = Requirement.id other)
  ∧ CreateFSModal.handleCreateFS
      {| CreateFSModal.selectedURS := CreateFSModal.selectedURS st;
         CreateFSModal.fsModalVisible := false |} values = None.
Proof.
  intros [t Ht] [d Hd]. unfold CreateFSModal.handleCreateFS. simpl.
  rewrite Ht, Hd. simpl. split; [|split].
  - intros Hvis. unfold CreateFSModal.generateFSVisible in Hvis.
    apply bool_decide_eq_true in Hvis.
    destruct (CreateFSModal.selectedURS st) as [urs|]; [|discriminate Hvis].
    simpl in *. injection Hvis as Hst.
    eexists urs, _. split; [reflexivity|]. split; [exact Hst|].
    split; reflexivity.
  - eexists. split; reflexivity.
  - reflexivity.
Qed.

Lemma FS_parent_is_the_selection_at_submit_witness :
  ∃ payload,
    CreateFSModal.handleCreateFS
      (CreateFSModal.handleAISuggestFS_done
         (CreateFSModal.selectRow (Sample.requirement "URS-002" URS_Draft)
            {| CreateFSModal.selectedURS :=
                 Some (Sample.requirement "URS-001" URS_Approved);
               CreateFSModal.fsModalVisible := false |}))
      {| CreateFSModal.title := Some "Signature dialog";
         CreateFSModal.description := Some "Dialog asks for the password";
         CreateFSModal.technical_approach := None |}
    = Some payload
    ∧ FunctionalSpecificationCreate.urs_id payload
      = Requirement.id (Sample.requirement "URS-002" URS_Draft).
Proof.
  apply (FS_parent_is_the_selection_at_submit
           {| CreateFSModal.selectedURS :=
                Some (Sample.requirement "URS-001" URS_Approved);
              CreateFSModal.fsModalVisible := false |}
           (Sample.requirement "URS-002" URS_Draft)
           {| CreateFSModal.title := Some "Signature dialog";
              CreateFSModal.description := Some "Dialog asks for the password";
              CreateFSModal.technical_approach := None |});
    simpl; eauto.
Defined.

(** ** Recording a test execution *)

(** X19: From a closed form, a click on Execute followed by a submission sends
    an execution only for the roles Executor and Admin, and then for the
    test case of the clicked row: its result is the chosen one of Pass,
    Fail and Blocked, never Not Executed, its actual result is not
    empty, and it carries at most one evidence reference, never an empty
    one. *)
Theorem recorded_execution_is_for_the_clicked_test_case
    (user : option User) (tc : TestCase.t)
    (st : TestManagementPage.ModalState)
    (values : ExecuteTestModal.FormValues) :
  TestManagementPage.execModalVisible st = false →
  match ExecuteTestModal.handleExecute
          (TestManagementPage.clickExecute user tc st) values with
  | Some payload =>
      (role_of user = Some Executor ∨ role_of user = Some Admin)
      ∧ TestExecutionCreate.test_case_id payload = TestCase.id tc
      ∧ ExecuteTestModal.result values
        = Some (TestExecutionCreate.result payload)
      ∧ TestExecutionCreate.result payload ∈ [Pass; Fail; Blocked]
      ∧ TestExecutionCreate.actual_result payload ≠ ""
      ∧ (length (TestExecutionCreate.evidence_references payload) ≤ 1)%nat
      ∧ "" ∉ TestExecutionCreate.evidence_references payload
  | None =>
      ¬ (role_of user = Some Executor ∨ role_of user = Some Admin)
      ∨ ExecuteTestModal.selected ExecuteTestModal.resultOptions
          (ExecuteTestModal.result values) = None
      ∨ DeviationPage.required (ExecuteTestModal.actual_result values) = None
  end.
Proof.
  intros Hclosed.
  unfold ExecuteTestModal.handleExecute, TestManagementPage.clickExecute.
  destruct (TestManagementPage.executeDisabled user tc) eqn:Hdis.
  - rewrite Hclosed. left. intros Hrole.
    unfold TestManagementPage.executeDisabled in Hdis.
    apply andb_true_iff in Hdis as [H1 H2].
    apply bool_decide_eq_true in H1. apply bool_decide_eq_true in H2.
    destruct Hrole; contradiction.
  - simpl.
    assert (Hrole : role_of user = Some Executor ∨ role_of user = Some Admin).
    { unfold TestManagementPage.executeDisabled in Hdis.
      apply andb_false_iff in Hdis as [H|H];
        apply bool_decide_eq_false in H.
      - left. destruct (decide (role_of user = Some Executor)); tauto.
      - right. destruct (decide (role_of user = Some Admin)); tauto. }
    destruct (ExecuteTestModal.selected ExecuteTestModal.resultOptions
                (ExecuteTestModal.result values)) as [r|] eqn:Hr; simpl;
      [|auto].
    destruct (DeviationPage.required (ExecuteTestModal.actual_result values))
      as [actual|] eqn:Ha; simpl; [|auto].
    apply required_Some in Ha as [_ Hne].
    unfold ExecuteTestModal.selected in Hr.
    destruct (ExecuteTestModal.result values) as [r'|]; simpl in Hr;
      [|discriminate Hr].
    destruct (decide (r' ∈ ExecuteTestModal.resultOptions)) as [Hin|];
      [|discriminate Hr].
    injection Hr as <-.
    split; [exact Hrole|]. split; [reflexivity|]. split; [reflexivity|].
    split; [exact Hin|].
    split; [rewrite decide_False by exact Hne; exact Hne|].
    destruct (Js.truthy (ExecuteTestModal.evidence values)) eqn:Hev; simpl.
    + apply truthy_Some in Hev as (e & -> & Hene). simpl.
      split; [lia|]. rewrite list_elem_of_singleton. congruence.
    + split; [lia|apply not_elem_of_nil].
Qed.

Lemma recorded_execution_is_for_the_clicked_test_case_witness :
  match ExecuteTestModal.handleExecute
          (TestManagementPage.clickExecute (Some Sample.executor)
             (Sample.testCase "TC-001")
             {| TestManagementPage.selectedTC := None;
                TestManagementPage.execModalVisible := false |})
          {| ExecuteTestModal.result := Some Pass;
             ExecuteTestModal.actual_result := Some "Signature shown";
             ExecuteTestModal.evidence := Some "shot-1.png";
             ExecuteTestModal.environment := None;
             ExecuteTestModal.comments := None |} with
  | Some payload => TestExecutionCreate.test_case_id payload = "TC-001"
  | None => False
  end.
Proof.
  pose proof (recorded_execution_is_for_the_clicked_test_case
                (Some Sample.executor) (Sample.testCase "TC-001")
                {| TestManagementPage.selectedTC := None;
                   TestManagementPage.execModalVisible := false |}
                {| ExecuteTestModal.result := Some Pass;
                   ExecuteTestModal.actual_result := Some "Signature shown";
                   ExecuteTestModal.evidence := Some "shot-1.png";
                   ExecuteTestModal.environment := None;
                   ExecuteTestModal.comments := None |} eq_refl) as H.
  vm_compute in H |- *. tauto.
Defined.

(** X20: A test case can be created under any loaded FS, whatever its status:
    the New Test Case form offers every FS, so in particular every FS
    that the New DS form offers. *)
Theorem test_case_parents_are_not_gated
    (fsList : list FunctionalSpecification.t) :
  (∀ fs, fs ∈ fsList →
     {| value := FunctionalSpecification.id fs;
        label := FunctionalSpecification.id fs +:+ ": "
                 +:+ FunctionalSpecification.title fs |}
     ∈ ExecuteTestModal.fsOptions fsList)
  ∧ (∀ o, o ∈ DSPage.fsOptions fsList → o ∈ ExecuteTestModal.fsOptions fsList)
  ∧ length (ExecuteTestModal.fsOptions fsList) = length fsList.
Proof.
  unfold ExecuteTestModal.fsOptions, DSPage.fsOptions, DSPage.approvedFS.
  repeat split.
  - intros fs Hfs. apply list_elem_of_fmap. eauto.
  - intros o Ho. apply elem_of_map_filter in Ho as (f & Hf & _ & ->).
    apply list_elem_of_fmap. eauto.
  - apply length_fmap.
Qed.

(** ** Validation summary report: decision banner *)

(** X21: The icon of the decision banner has the colour of the banner exactly
    for the three decisions the page knows; any other decision gets a
    grey banner with the red icon of Not Approved. *)
Theorem decision_icon_and_colour (decision : string) :
  ((VSRPage.getDecisionIcon decision).2 = VSRPage.getDecisionColor decision
   ↔ decision ∈ ["Approved"; "Conditionally Approved"; "Not Approved"])
  ∧ (decision ∉ ["Approved"; "Conditionally Approved"; "Not Approved"] →
     VSRPage.getDecisionColor decision = "#64748b"
     ∧ VSRPage.getDecisionIcon decision = (VSRPage.CloseCircle, "#ef4444")).
Proof.
  unfold VSRPage.getDecisionIcon, VSRPage.getDecisionColor.
  rewrite !elem_of_cons, elem_of_nil.
  destruct (decide (decision = "Approved")) as [->|H1].
  { simpl. split; [tauto|]. intros H. exfalso. apply H. auto. }
  destruct (decide (decision = "Conditionally Approved")) as [->|H2].
  { simpl. split; [tauto|]. intros H. exfalso. apply H. auto. }
  destruct (decide (decision = "Not Approved")) as [->|H3].
  { simpl. split; [tauto|]. intros H. exfalso. apply H. auto. }
  simpl. split; [|auto]. split; [discriminate|tauto].
Qed.

(** ** Dashboard: badges and progress bars *)

(** X22: Every project is counted by exactly one of the badges Active and
    Completed; a project on hold counts as active. *)
Theorem badges_partition_the_projects (projects : list ValidationProject.t) :
  DashboardPage.activeCount projects + DashboardPage.completedCount projects
  = Js.length projects
  ∧ (∀ p, p ∈ projects → ValidationProject.status p = OnHold →
          0 < DashboardPage.activeCount projects).
Proof.
  unfold DashboardPage.activeCount, DashboardPage.completedCount. split.
  - rewrite Z.add_comm.
    apply (length_filter_split
             (λ p, ValidationProject.status p = Completed)).
  - intros p Hp Hst.
    assert (Hin : p ∈ filter (λ p, ValidationProject.status p ≠ Completed)
                        projects)
      by (apply list_elem_of_filter; split; [congruence|exact Hp]).
    unfold Js.length.
    destruct (filter _ projects); [apply elem_of_nil in Hin; contradiction|].
    simpl. lia.
Qed.

(** X23: The progress of a project grows strictly from one stage to the next,
    is 100 exactly for Completed, which is exactly when the bar is
    drawn green, and is below zero only for On Hold. *)
Theorem progress_follows_the_stages :
  (∀ (i j : nat) (s t : ProjectStatus),
     DashboardPage.stages !! i = Some s →
     DashboardPage.stages !! j = Some t →
     (i < j)%nat →
     (DashboardPage.getProgressPercent s
      <? DashboardPage.getProgressPercent t)%float = true)
  ∧ (∀ s, (DashboardPage.getProgressPercent s =? 100)%float = true
          ↔ s = Completed)
  ∧ (∀ s, DashboardPage.strokeColor s = "#22c55e"
          ↔ (DashboardPage.getProgressPercent s =? 100)%float = true)
  ∧ (∀ s, (DashboardPage.getProgressPercent s <? 0)%float = true
          ↔ s = OnHold).
Proof.
  repeat match goal with |- _ ∧ _ => split end.
  - intros i j s t Hi Hj Hlt.
    destruct i as [|[|[|[|[|[|i]]]]]], j as [|[|[|[|[|[|j]]]]]];
      simpl in Hi, Hj; try discriminate Hi; try discriminate Hj;
      injection Hi as <-; injection Hj as <-; try lia;
      vm_compute; reflexivity.
  - intros s. destruct s; vm_compute; split; intros H;
      try reflexivity; discriminate H.
  - intros s. destruct s; vm_compute; split; intros H;
      try reflexivity; discriminate H.
  - intros s. destruct s; vm_compute; split; intros H;
      try reflexivity; discriminate H.
Qed.
